(** * Taaza chatbot backend: session store and cart engine

    A shallow embedding of [src/main.py]: the in-memory session store, the
    cart helpers ([add_to_cart_state], [remove_from_cart_state],
    [compute_cart_summary]) and the handlers that touch them
    ([session_create], [cart_add], [cart_remove], [cart_view], [checkout],
    [session_reset]).

    Modelling choices.
    - A Python [float] is an IEEE 754 binary64 number ([spec_float] with
      precision 53 and maximal exponent 1024); products and sums are the
      rounded ones ([SFmul], [SFadd]).  A Python [int] is a [Z]; where an
      [int] meets a [float] in a product it is first converted, and the
      conversion raises [OverflowError] when the integer is beyond the range
      of binary64.  The raising paths of the helpers are part of the model,
      with the assignments that ran before the raise.
    - A Python [str] is represented by the [string] of the bytes of its
      UTF-8 encoding.  Equality, emptiness, concatenation and a test for an
      ASCII prefix are the same on the encoding.  The methods whose answer
      depends on the Unicode tables ([lower], [strip], [isdigit]) and [len],
      which counts code points, are a parameter of the model ([PyStr]);
      [ascii_str] gives them on ASCII strings and is used for the concrete
      examples only, all of which are ASCII.
    - The module-level dict [sessions] is a [gmap string session] threaded
      through every handler, together with the list of deletion timers
      started by [reset_session_later] and the list of requests posted to
      the billing API.  Handlers run one at a time: thread interleaving and
      the passing of real time are not modelled.
    - [HTTPException] is the [Raise] constructor of [response]; an exception
      that no handler catches is the 500 answer of the framework.  What is
      modelled is the value a handler returns, not its JSON rendering; the
      limit of [str(int)] on the number of digits is not modelled. *)

From Stdlib Require Import ZArith QArith Lia Lqa Ascii String List SpecFloat.
From stdpp Require Import gmap strings list fin_maps pretty.

Local Open Scope string_scope.
Local Open Scope Z_scope.

(** ** Floats *)

Definition float : Set := spec_float.

Definition prec : Z := 53.
Definition emax : Z := 1024.

(** [a * b] and [a + b] on floats. *)
Definition fmul (a b : float) : float := SFmul prec emax a b.
Definition fadd (a b : float) : float := SFadd prec emax a b.

(** The float nearest to [m * 2^e] (ties to even): how a decimal literal or
    a JSON number is read, given as a binary fraction. *)
Definition fl2 (m e : Z) : float := binary_normalize prec emax m e false.

(** The float nearest to an integer. *)
Definition fl (z : Z) : float := fl2 z 0.

(** The conversion of an [int] operand of a float product: [None] stands for
    [OverflowError] ("int too large to convert to float"), raised when the
    nearest float would be beyond the largest one. *)
Definition float_of_int (z : Z) : option float :=
  match fl z with
  | S754_infinity _ => None
  | f => Some f
  end.



(** What a call does: it returns a value, or it raises [OverflowError]. *)
Inductive outcome (A : Type) :=
  | Returned (a : A)
  | OverflowError.
Arguments Returned {A} a.
Arguments OverflowError {A}.

Definition returns {A} (o : outcome A) : Prop := ∃ a, o = Returned a.

(** ** Strings *)

(** The methods of [str] that depend on the Unicode tables, and [len]. *)
Record PyStr := {
  str_lower : string → string;
  str_strip : string → string;
  str_isdigit : string → bool;
  str_len : string → nat
}.

(** [c.lower()] on one ASCII character. *)
Definition lower_ascii (c : ascii) : ascii :=
  let n := nat_of_ascii c in
  if (65 <=? n)%nat && (n <=? 90)%nat then ascii_of_nat (n + 32) else c.

(** [s.lower()] on an ASCII string. *)
Fixpoint lower (s : string) : string :=
  match s with
  | EmptyString => EmptyString
  | String c rest => String (lower_ascii c) (lower rest)
  end.

(** ASCII characters removed by [str.strip()]: tab, newline, vertical tab,
    form feed, carriage return, the four separators 0x1c-0x1f and space. *)
Definition is_space (c : ascii) : bool :=
  let n := nat_of_ascii c in
  ((9 <=? n)%nat && (n <=? 13)%nat) || ((28 <=? n)%nat && (n <=? 32)%nat).

Fixpoint lstrip (s : string) : string :=
  match s with
  | EmptyString => EmptyString
  | String c rest => if is_space c then lstrip rest else s
  end.

Definition rstrip (s : string) : string :=
  string_of_list_ascii
    (List.rev (list_ascii_of_string
                 (lstrip (string_of_list_ascii
                            (List.rev (list_ascii_of_string s)))))).

(** [s.strip()] on an ASCII string. *)
Definition strip (s : string) : string := rstrip (lstrip s).

Definition is_digit_ascii (c : ascii) : bool :=
  let n := nat_of_ascii c in (48 <=? n)%nat && (n <=? 57)%nat.

Fixpoint all_digits (s : string) : bool :=
  match s with
  | EmptyString => true
  | String c rest => is_digit_ascii c && all_digits rest
  end.

(** [s.isdigit()] on an ASCII string: false on the empty string. *)
Definition isdigit (s : string) : bool :=
  match s with
  | EmptyString => false
  | _ => all_digits s
  end.

(** The methods on ASCII strings, where a byte is a code point. *)
Definition ascii_str : PyStr :=
  {| str_lower := lower; str_strip := strip; str_isdigit := isdigit;
     str_len := String.length |}.

(** [s.startswith(p)] for an ASCII prefix [p]. *)
Definition startswith (p s : string) : bool := String.prefix p s.

(** ** Data model *)

(** One entry of [state["cart"]]. *)
Record line_item := LineItem {
  name : string;
  price : float;
  qty : Z;
  subtotal : float
}.

(** [state["user"]]. *)
Record user_info := UserInfo {
  user_name : string;
  mobile : string;
  address : string
}.

(** A session dict.  The key ["cart"] may be missing from a dict, which is
    what [add_to_cart_state] and [state.get("cart", [])] guard against:
    [cart] is [None] then. *)
Record session := Session {
  created_at : float;
  user : user_info;
  cart : option (list line_item);
  categories : option (list string);
  selected_cat : option string
}.

Definition set_cart (state : session) (c : option (list line_item)) : session :=
  {| created_at := created_at state; user := user state; cart := c;
     categories := categories state; selected_cat := selected_cat state |}.

(** [state.get("cart", [])]. *)
Definition get_cart (state : session) : list line_item :=
  default [] (cart state).

(** The dict returned by [remove_from_cart_state]. *)
Record op_result := OpResult {
  success : bool;
  message : string
}.

(** ** Cart helpers *)

(** The in-place update of a matching line in [add_to_cart_state]:
    [it["qty"] += qty; it["subtotal"] = it["qty"] * it["price"]].  When the
    product raises, the quantity is already assigned and the subtotal is
    not. *)
Definition merge_line (it : line_item) (q : Z) : line_item * outcome unit :=
  match float_of_int (qty it + q) with
  | Some f =>
      ({| name := name it; price := price it; qty := qty it + q;
          subtotal := fmul f (price it) |}, Returned tt)
  | None =>
      ({| name := name it; price := price it; qty := qty it + q;
          subtotal := subtotal it |}, OverflowError)
  end.

(** The in-place update of a matching line in [remove_from_cart_state]:
    [it["qty"] -= qty; it["subtotal"] = it["qty"] * it["price"]]. *)
Definition reduce_line (it : line_item) (q : Z) : line_item * outcome unit :=
  match float_of_int (qty it - q) with
  | Some f =>
      ({| name := name it; price := price it; qty := qty it - q;
          subtotal := fmul f (price it) |}, Returned tt)
  | None =>
      ({| name := name it; price := price it; qty := qty it - q;
          subtotal := subtotal it |}, OverflowError)
  end.

(** The loop of [add_to_cart_state]: the first line whose name is equal to
    [item_name] (Python [==], case-sensitive) gets its quantity raised and
    its subtotal recomputed from the stored price; when the loop finds none,
    a new line is appended, unless [float(price) * int(qty)] raises while
    the line is built. *)
Fixpoint add_to_cart (c : list line_item) (item_name : string) (p : float)
    (q : Z) : list line_item * outcome unit :=
  match c with
  | [] =>
      match float_of_int q with
      | Some f =>
          ([ {| name := item_name; price := p; qty := q;
                subtotal := fmul p f |} ], Returned tt)
      | None => ([], OverflowError)
      end
  | it :: rest =>
      if decide (name it = item_name) then
        let '(it', r) := merge_line it q in (it' :: rest, r)
      else
        let '(rest', r) := add_to_cart rest item_name p q in (it :: rest', r)
  end.

(** The key ["cart"] is set before the loop runs. *)
Definition add_to_cart_state (state : session) (item_name : string)
    (p : float) (q : Z) : session * outcome unit :=
  let '(c', r) := add_to_cart (get_cart state) item_name p q in
  (set_cart state (Some c'), r).

Definition removed_result (item_name : string) : op_result :=
  {| success := true; message := "Removed " +:+ item_name +:+ " from cart." |}.

Definition reduced_result (item_name : string) (q : Z) : op_result :=
  {| success := true;
     message := "Reduced " +:+ item_name +:+ " quantity by " +:+ pretty q +:+ "." |}.

Definition not_present_result (item_name : string) : op_result :=
  {| success := false;
     message := "Item '" +:+ item_name +:+ "' not present in cart." |}.

(** The test of the loop of [remove_from_cart_state]. *)
Definition matches (py : PyStr) (item_name : string) (it : line_item) : bool :=
  bool_decide (str_lower py (name it) = str_lower py item_name).

(** The loop of [remove_from_cart_state] on the cart list. *)
Fixpoint remove_from_cart (py : PyStr) (c : list line_item)
    (item_name : string) (q : Z) : list line_item * outcome op_result :=
  match c with
  | [] => ([], Returned (not_present_result item_name))
  | it :: rest =>
      if matches py item_name it then
        if qty it <=? q then (rest, Returned (removed_result item_name))
        else
          match reduce_line it q with
          | (it', Returned _) =>
              (it' :: rest, Returned (reduced_result item_name q))
          | (it', OverflowError) => (it' :: rest, OverflowError)
          end
      else
        let '(rest', r) := remove_from_cart py rest item_name q in
        (it :: rest', r)
  end.

(** Without a ["cart"] key the loop runs over a fresh empty list and the
    dict is not touched. *)
Definition remove_from_cart_state (py : PyStr) (state : session)
    (item_name : string) (q : Z) : session * outcome op_result :=
  match cart state with
  | None => (state, Returned (not_present_result item_name))
  | Some c =>
      let '(c', r) := remove_from_cart py c item_name q in
      (set_cart state (Some c'), r)
  end.

(** A row of [compute_cart_summary]. *)
Record summary_line := SummaryLine {
  line_name : string;
  line_qty : Z;
  line_rate : float;
  line_amount : float
}.

Record cart_summary := CartSummary {
  lines : list summary_line;
  total : float
}.

(** Float zero: the value of [total = 0] once a float has been added to it,
    and the model of the integer 0 that an empty cart leaves there. *)
Definition fzero : float := S754_zero false.

Definition summary_step (acc : cart_summary) (it : line_item) : cart_summary :=
  {| lines := lines acc ++
              [ {| line_name := name it; line_qty := qty it;
                   line_rate := price it; line_amount := subtotal it |} ];
     total := fadd (total acc) (subtotal it) |}.

Definition compute_cart_summary (c : list line_item) : cart_summary :=
  fold_left summary_step c {| lines := []; total := fzero |}.

(** ** Cart operations as data *)

Inductive cart_op :=
  | AddItem (item_name : string) (p : float) (q : Z)
  | RemoveItem (item_name : string) (q : Z).

(** The session dict after a call, whether the call returned or raised. *)
Definition apply_op (py : PyStr) (state : session) (op : cart_op) : session :=
  match op with
  | AddItem n p q => fst (add_to_cart_state state n p q)
  | RemoveItem n q => fst (remove_from_cart_state py state n q)
  end.

(** The call returned: it did not raise. *)
Definition op_returns (py : PyStr) (state : session) (op : cart_op) : Prop :=
  match op with
  | AddItem n p q => returns (snd (add_to_cart_state state n p q))
  | RemoveItem n q => returns (snd (remove_from_cart_state py state n q))
  end.

(** A history of calls on one session dict; a call that raises is answered
    with status 500 and the next call finds the dict as the raise left it. *)
Definition run_ops (py : PyStr) (ops : list cart_op) (state : session)
  : session :=
  fold_left (apply_op py) ops state.

(** Every call of the history returned. *)
Fixpoint all_return (py : PyStr) (ops : list cart_op) (state : session)
  : Prop :=
  match ops with
  | [] => True
  | op :: rest =>
      op_returns py state op ∧ all_return py rest (apply_op py state op)
  end.

(** Two names equal up to case. *)
Definition same_name_ci (py : PyStr) (a b : string) : Prop :=
  str_lower py a = str_lower py b.

(** No two lines of the cart have names equal up to case. *)
Fixpoint unique_ci (py : PyStr) (c : list line_item) : Prop :=
  match c with
  | [] => True
  | it :: rest =>
      Forall (fun it' => ¬ same_name_ci py (name it) (name it')) rest
      ∧ unique_ci py rest
  end.

(** The stored subtotal is the float product of the stored price and the
    stored quantity. *)
Definition subtotal_ok (it : line_item) : Prop :=
  ∃ f, float_of_int (qty it) = Some f ∧ subtotal it = fmul (price it) f.

(** ** The process state and the handlers *)

(** [raise HTTPException(status_code, detail)]: the detail is a text, or
    the dict built when the billing API answers with a failure status. *)
Inductive detail_t :=
  | DetailText (s : string)
  | DetailBilling (billing_status : Z) (billing_response : string).

Inductive response (A : Type) :=
  | Ok (a : A)
  | Raise (status_code : Z) (detail : detail_t).
Arguments Ok {A} a.
Arguments Raise {A} status_code detail.

(** A row of [items_payload] in [checkout]. *)
Record payload_item := PayloadItem {
  itemName : string;
  item_qty : Z;
  rate : float;
  amount : float
}.

(** The dict [payload] in [checkout]. *)
Record order_payload := OrderPayload {
  customerName : string;
  mobileNo : string;
  payload_address : string;
  items : list payload_item;
  payload_total : float;
  paymentMethod : string
}.

(** One call [requests.post(BILL_API_URL, json=payload, headers=headers)]. *)
Record billing_request := BillingRequest {
  sent_payload : order_payload;
  authorization : option string
}.

(** What that call does: it raises, or it returns a response. *)
Inductive post_outcome :=
  | PostRaises (err : string)
  | PostResponse (resp_status : Z) (resp_body : string).

(** The configuration read from the environment at start-up. *)
Record config := Config {
  AUTO_LOGOUT_SECONDS : Z;
  BILL_API_AUTH : option string
}.

Definition default_config : config :=
  {| AUTO_LOGOUT_SECONDS := 1800; BILL_API_AUTH := None |}.

(** The mutable state of the process: the dict [sessions], the sleeping
    threads started by [reset_session_later] (session id and delay in
    seconds, oldest first) and the requests posted to the billing API. *)
Record world := World {
  sessions : gmap string session;
  timers : list (string * Z);
  outbox : list billing_request
}.

Definition set_sessions (w : world) (m : gmap string session) : world :=
  {| sessions := m; timers := timers w; outbox := outbox w |}.

Definition empty_world : world :=
  {| sessions := ∅; timers := []; outbox := [] |}.

(** [reset_session_later(session_id, delay)] starts a thread that sleeps
    and then pops the session. *)
Definition reset_session_later (session_id : string) (delay : Z) (w : world)
  : world :=
  {| sessions := sessions w; timers := timers w ++ [(session_id, delay)];
     outbox := outbox w |}.

(** The body of [_worker] once its sleep is over:
    [sessions.pop(session_id, None)]. *)
Definition timer_fires (session_id : string) (w : world) : world :=
  set_sessions w (delete session_id (sessions w)).

Definition validate_mobile (py : PyStr) (m : string) : bool :=
  if negb (bool_decide (m ≠ "")) || negb (str_isdigit py m) then false
  else if negb (startswith "3" m) then false
  else if negb (bool_decide (str_len py m = 10%nat)) then false
  else true.

Record SessionCreateRequest := {
  req_name : string;
  req_mobile : string;
  req_address : string;
  req_country_code : option string
}.

Record session_created := SessionCreated {
  new_session_id : string;
  new_user : user_info
}.

(** [f"sess_{int(time.time()*1000)}"], given the clock in milliseconds. *)
Definition make_session_id (now_ms : Z) : string := "sess_" +:+ pretty now_ms.

(** [session_create].  [now_ms] is [int(time.time()*1000)] and [now] the
    second reading of the clock, stored as ["created_at"]. *)
Definition session_create (py : PyStr) (cfg : config) (now_ms : Z)
    (now : float) (req : SessionCreateRequest) (w : world)
  : world * response session_created :=
  let nm := str_strip py (req_name req) in
  let mob := str_strip py (req_mobile req) in
  let addr := str_strip py (req_address req) in
  let country_code :=
    match req_country_code req with
    | Some cc => if bool_decide (cc = "") then "+92" else cc
    | None => "+92"
    end in
  if bool_decide (nm = "") then
    (w, Raise 400 (DetailText "Name cannot be empty."))
  else if negb (validate_mobile py mob) then
    (w, Raise 400 (DetailText
      "Mobile must be 10 digits, start with 3 and contain only digits (e.g., 3001234567)."))
  else if bool_decide (addr = "") || (str_len py addr <? 3)%nat then
    (w, Raise 400 (DetailText "Address cannot be empty or too short."))
  else
    let session_id := make_session_id now_ms in
    let u := {| user_name := nm; mobile := country_code +:+ mob;
                address := addr |} in
    let st := {| created_at := now; user := u; cart := Some [];
                 categories := None; selected_cat := None |} in
    let w1 := set_sessions w (<[session_id := st]> (sessions w)) in
    let w2 := reset_session_later session_id (AUTO_LOGOUT_SECONDS cfg) w1 in
    (w2, Ok {| new_session_id := session_id; new_user := u |}).

Record cart_view_t := CartReply {
  reply_cart : list line_item;
  reply_summary : cart_summary
}.

Definition session_not_found {A} : response A :=
  Raise 404 (DetailText "Session not found.").

(** The answer of the framework to an exception that no handler catches. *)
Definition internal_server_error {A} : response A :=
  Raise 500 (DetailText "Internal Server Error").

(** [cart_add].  The helper works on the dict that the store holds: what it
    assigned before a raise stays in the store. *)
Definition cart_add (sid item_name : string) (p : float) (q : Z) (w : world)
  : world * response cart_view_t :=
  match sessions w !! sid with
  | None => (w, session_not_found)
  | Some state =>
      let '(state', r) := add_to_cart_state state item_name p q in
      (set_sessions w (<[sid := state']> (sessions w)),
       match r with
       | Returned _ =>
           Ok {| reply_cart := get_cart state';
                 reply_summary := compute_cart_summary (get_cart state') |}
       | OverflowError => internal_server_error
       end)
  end.

(** [cart_remove].  The reply reads [sessions[sid]["cart"]], which raises
    [KeyError] on a dict without that key. *)
Definition cart_remove (py : PyStr) (sid item_name : string) (q : Z)
    (w : world) : world * response (op_result * cart_view_t) :=
  match sessions w !! sid with
  | None => (w, session_not_found)
  | Some state =>
      let '(state', r) := remove_from_cart_state py state item_name q in
      (set_sessions w (<[sid := state']> (sessions w)),
       match r, cart state' with
       | Returned res, Some c =>
           Ok (res, {| reply_cart := c;
                       reply_summary := compute_cart_summary c |})
       | Returned _, None => internal_server_error
       | OverflowError, _ => internal_server_error
       end)
  end.

(** The loop of [checkout] that fills [items_payload] and [total]. *)
Definition payload_step (acc : list payload_item * float) (it : line_item)
  : list payload_item * float :=
  ((fst acc ++ [ {| itemName := name it; item_qty := qty it;
                    rate := price it; amount := subtotal it |} ])%list,
   fadd (snd acc) (subtotal it)).

Definition items_payload (c : list line_item) : list payload_item * float :=
  fold_left payload_step c ([], fzero).

Definition build_payload (state : session) (c : list line_item)
    (payment : string) : order_payload :=
  let '(rows, tot) := items_payload c in
  {| customerName := user_name (user state);
     mobileNo := mobile (user state);
     payload_address := address (user state);
     items := rows;
     payload_total := tot;
     paymentMethod := payment |}.

Definition bearer (cfg : config) : option string :=
  match BILL_API_AUTH cfg with
  | Some tok => if bool_decide (tok = "") then None else Some ("Bearer " +:+ tok)
  | None => None
  end.

Record checkout_ok := CheckoutOk {
  bill_api_status : Z;
  payload_sent : order_payload
}.

(** [checkout].  [bill] is the billing API: what the call to
    [requests.post] does with the request that is sent. *)
Definition checkout (cfg : config) (bill : billing_request -> post_outcome)
    (sid payment : string) (w : world) : world * response checkout_ok :=
  match sessions w !! sid with
  | None => (w, session_not_found)
  | Some state =>
      match get_cart state with
      | [] => (w, Raise 400 (DetailText "Cart is empty."))
      | (_ :: _) as c =>
          let payload := build_payload state c payment in
          let request := {| sent_payload := payload;
                            authorization := bearer cfg |} in
          let w1 := {| sessions := sessions w; timers := timers w;
                       outbox := outbox w ++ [request] |} in
          match bill request with
          | PostRaises err =>
              (w1, Raise 502 (DetailText
                 ("Failed to forward to billing API: " +:+ err)))
          | PostResponse st body =>
              if bool_decide (st = 200 ∨ st = 201) then
                let w2 := set_sessions w1
                            (<[sid := set_cart state (Some [])]> (sessions w1)) in
                (reset_session_later sid 30 w2,
                 Ok {| bill_api_status := st; payload_sent := payload |})
              else (w1, Raise 502 (DetailBilling st body))
          end
      end
  end.

(** JSON values, as [json.loads] returns them. *)
#[local] Unset Elimination Schemes.
Inductive json :=
  | JNull
  | JBool (b : bool)
  | JNum (n : Z)
  | JStr (s : string)
  | JArr (l : list json)
  | JObj (fields : list (string * json)).
#[local] Set Elimination Schemes.

(** What [session_reset] can hold in [body].  Starlette's [Request.json] is
    declared [async def]: a call without [await] raises nothing and yields a
    coroutine object, whatever the request carries. *)
Inductive pyvalue :=
  | PyJson (j : json)
  | PyCoroutine.

(** The request as it comes in: the JSON value its body holds, if the body
    is JSON at all. *)
Record Request := { request_body : option json }.

(** [request.json()] as [session_reset] calls it: in a plain [def], with no
    [await]. *)
Definition Request_json (request : Request) : pyvalue := PyCoroutine.

(** [d.get(k)] on a parsed JSON object; a repeated key keeps its last
    value. *)
Fixpoint dict_get (k : string) (fields : list (string * json)) : option json :=
  match fields with
  | [] => None
  | (k', v) :: rest =>
      match dict_get k rest with
      | Some v' => Some v'
      | None => if decide (k' = k) then Some v else None
      end
  end.

(** Python truthiness of a JSON value. *)
Definition truthy (j : json) : bool :=
  match j with
  | JNull => false
  | JBool b => b
  | JNum n => negb (n =? 0)
  | JStr s => negb (bool_decide (s = ""))
  | JArr l => match l with [] => false | _ => true end
  | JObj l => match l with [] => false | _ => true end
  end.

(** Lines 315-319 of [session_reset], for a given value of [body].  A list
    or dict as session id makes [session_id in sessions] raise [TypeError]
    (unhashable), which the framework turns into status 500; every other
    value that is not a string is in no way a key of [sessions]. *)
Definition session_reset_body (body : pyvalue) (w : world)
  : world * response bool :=
  let session_id :=
    match body with
    | PyJson (JObj fields) => default JNull (dict_get "session_id" fields)
    | _ => JNull
    end in
  if truthy session_id then
    match session_id with
    | JStr sid =>
        match sessions w !! sid with
        | Some _ => (set_sessions w (delete sid (sessions w)), Ok true)
        | None => (w, Ok false)
        end
    | JArr _ | JObj _ =>
        (w, Raise 500 (DetailText "Internal Server Error"))
    | _ => (w, Ok false)
    end
  else (w, Ok false).

(** [session_reset]. *)
Definition session_reset (request : Request) (w : world)
  : world * response bool :=
  session_reset_body (Request_json request) w.


(** ** Claims as predicates *)

(** Sum of the quantities of a list of calls (price, quantity). *)
Definition sum_qty (calls : list (float * Z)) : Z :=
  foldr (fun pq acc => snd pq + acc) 0 calls.

(** The session a cart history starts from: any session dict whose cart is
    the empty list, as [session_create] stores it. *)
Definition with_empty_cart (state : session) : session :=
  set_cart state (Some []).

(** The cart holds one line, with the given quantity, whose subtotal is
    that quantity times the given price. *)
Definition single_line_at (c : list line_item) (q : Z) (p : float) : Prop :=
  ∃ it f, c = [it] ∧ qty it = q ∧ float_of_int q = Some f
          ∧ subtotal it = fmul f p.

(** No line of the list passes the test of [remove_from_cart_state]. *)
Definition no_match (py : PyStr) (item_name : string) (c : list line_item)
  : Prop :=
  Forall (fun it => matches py item_name it = false) c.




(** A status code of the 2xx class. *)
Definition is_2xx (st : Z) : Prop := 200 ≤ st < 300.

(** A payload row and a summary row that carry the same values. *)
Definition same_row (r : payload_item) (l : summary_line) : Prop :=
  itemName r = line_name l ∧ item_qty r = line_qty l ∧
  rate r = line_rate l ∧ amount r = line_amount l.

(** Sample data for the examples. *)
Definition ali : user_info :=
  {| user_name := "Ali"; mobile := "+923001234567"; address := "House 1 St 2" |}.

Definition ali_session : session :=
  {| created_at := fzero; user := ali; cart := Some [];
     categories := None; selected_cat := None |}.

Definition ali_request : SessionCreateRequest :=
  {| req_name := "Ali"; req_mobile := "3001234567";
     req_address := "House 1 St 2"; req_country_code := Some "+92" |}.

Definition sara_request : SessionCreateRequest :=
  {| req_name := "Sara"; req_mobile := "3117654321";
     req_address := "Flat 9 Block C"; req_country_code := None |}.

Definition chicken_cart : list line_item :=
  [LineItem "Chicken" (fl 500) 2 (fl 1000)].

(** A store with one session, created at millisecond 1700000000000, whose
    cart holds one line. *)
Definition ali_world : world :=
  {| sessions := {[ "sess_1700000000000" := set_cart ali_session (Some chicken_cart) ]};
     timers := [("sess_1700000000000", 1800)];
     outbox := [] |}.

(** Billing APIs that answer every request with the same status. *)
Definition billing_answers (st : Z) : billing_request → post_outcome :=
  fun _ => PostResponse st "{}".

(** The request that [checkout] posts for a session. *)
Definition checkout_request (cfg : config) (state : session) (payment : string)
  : billing_request :=
  {| sent_payload := build_payload state (get_cart state) payment;
     authorization := bearer cfg |}.

(** The record that [session_create] stores. *)
Definition new_session (now : float) (u : user_info) : session :=
  {| created_at := now; user := u; cart := Some [];
     categories := None; selected_cat := None |}.

(** ** Further handlers and predicates *)

(** The answer of [cart_view]. *)
Record cart_view_reply := CartViewReply {
  view_user : user_info;
  view_cart : list line_item;
  view_summary : cart_summary
}.

(** [cart_view]: it reads the session and assigns nothing. *)
Definition cart_view (session_id : string) (w : world)
  : response cart_view_reply :=
  match sessions w !! session_id with
  | None => session_not_found
  | Some state =>
      Ok {| view_user := user state;
            view_cart := get_cart state;
            view_summary := compute_cart_summary (get_cart state) |}
  end.

(** The names passed to the add calls of a history, in order. *)
Fixpoint add_names (ops : list cart_op) : list string :=
  match ops with
  | [] => []
  | AddItem n _ _ :: rest => n :: add_names rest
  | RemoveItem _ _ :: rest => add_names rest
  end.

(** Every add call of the history asks for a positive quantity. *)
Definition adds_positive (ops : list cart_op) : Prop :=
  Forall (fun op => match op with
                    | AddItem _ _ q => 0 < q
                    | RemoveItem _ _ => True
                    end) ops.


(** ** Basic facts *)

Lemma fmul_comm (a b : float) : fmul a b = fmul b a.
Proof.
  unfold fmul, SFmul.
  destruct a as [sa|sa| |sa ma ea], b as [sb|sb| |sb mb eb];
    try reflexivity; try (by rewrite xorb_comm).
  by rewrite xorb_comm, Pos.mul_comm, Z.add_comm.
Qed.

Lemma get_cart_set_cart state c : get_cart (set_cart state (Some c)) = c.
Proof. reflexivity. Qed.

Lemma get_cart_add state n p q :
  get_cart (fst (add_to_cart_state state n p q))
  = fst (add_to_cart (get_cart state) n p q).
Proof.
  unfold add_to_cart_state.
  destruct (add_to_cart (get_cart state) n p q); reflexivity.
Qed.

Lemma snd_add_to_cart_state state n p q :
  snd (add_to_cart_state state n p q) = snd (add_to_cart (get_cart state) n p q).
Proof.
  unfold add_to_cart_state.
  destruct (add_to_cart (get_cart state) n p q); reflexivity.
Qed.

Lemma get_cart_remove py state n q :
  get_cart (fst (remove_from_cart_state py state n q))
  = fst (remove_from_cart py (get_cart state) n q).
Proof.
  destruct state as [t u [c|] cats sel];
    unfold remove_from_cart_state, get_cart; simpl.
  - destruct (remove_from_cart py c n q); reflexivity.
  - reflexivity.
Qed.

Lemma snd_remove_from_cart_state py state n q :
  snd (remove_from_cart_state py state n q)
  = snd (remove_from_cart py (get_cart state) n q).
Proof.
  destruct state as [t u [c|] cats sel];
    unfold remove_from_cart_state, get_cart; simpl.
  - destruct (remove_from_cart py c n q); reflexivity.
  - reflexivity.
Qed.

Lemma get_cart_apply_op py state op :
  get_cart (apply_op py state op) =
  match op with
  | AddItem n p q => fst (add_to_cart (get_cart state) n p q)
  | RemoveItem n q => fst (remove_from_cart py (get_cart state) n q)
  end.
Proof. destruct op; [apply get_cart_add | apply get_cart_remove]. Qed.

(** An invariant of carts that every call preserves, returning or raising,
    holds of every cart built from the empty one. *)
Lemma run_ops_invariant py (P : list line_item → Prop) :
  (∀ c n p q, P c → P (fst (add_to_cart c n p q))) →
  (∀ c n q, P c → P (fst (remove_from_cart py c n q))) →
  ∀ ops state, P (get_cart state) → P (get_cart (run_ops py ops state)).
Proof.
  intros Hadd Hrem ops. induction ops as [|op ops IH]; intros state HP.
  - exact HP.
  - simpl. apply IH. rewrite get_cart_apply_op.
    destruct op; [apply Hadd | apply Hrem]; exact HP.
Qed.

(** ** The arithmetic of the code on sample values *)

Example float_products_are_rounded :
  fmul (fl 500) (fl 2) = fl 1000
  ∧ fmul (fl2 7205759403792794 (-56)) (fl 3) = fl2 5404319552844596 (-54)
  ∧ fadd (fl 10000000000000000) (fl 1) = fl 10000000000000000
  ∧ float_of_int (2 ^ 1024 - 2 ^ 970 - 1) = Some (fl (2 ^ 1024 - 2 ^ 971))
  ∧ float_of_int (2 ^ 1024 - 2 ^ 970) = None.
Proof. vm_compute. repeat split. Qed.

Example chicken_scenario_add :
  get_cart (run_ops ascii_str [AddItem "Chicken" (fl 500) 2] ali_session)
  = [ LineItem "Chicken" (fl 500) 2 (fl 1000) ].
Proof. vm_compute. reflexivity. Qed.

Example validate_mobile_examples :
  validate_mobile ascii_str "3001234567" = true
  ∧ validate_mobile ascii_str "12345" = false
  ∧ validate_mobile ascii_str "30012345678" = false
  ∧ validate_mobile ascii_str "abcdefghij" = false.
Proof. repeat split; reflexivity. Qed.

Example lower_example : lower "CHICKEN" = "chicken" ∧ lower "Chicken" = "chicken".
Proof. split; reflexivity. Qed.

(** ** Subtotals (C8) *)

Lemma merge_line_subtotal_ok it q :
  snd (merge_line it q) = Returned tt → subtotal_ok (fst (merge_line it q)).
Proof.
  unfold merge_line. destruct (float_of_int (qty it + q)) as [f|] eqn:Hf;
    simpl; [|discriminate].
  intros _. exists f. simpl. split; [exact Hf | apply fmul_comm].
Qed.

Lemma reduce_line_subtotal_ok it q :
  snd (reduce_line it q) = Returned tt → subtotal_ok (fst (reduce_line it q)).
Proof.
  unfold reduce_line. destruct (float_of_int (qty it - q)) as [f|] eqn:Hf;
    simpl; [|discriminate].
  intros _. exists f. simpl. split; [exact Hf | apply fmul_comm].
Qed.

Lemma add_to_cart_subtotal_ok c n p q :
  returns (snd (add_to_cart c n p q)) →
  Forall subtotal_ok c → Forall subtotal_ok (fst (add_to_cart c n p q)).
Proof.
  induction c as [|it rest IH]; intros Hr H; simpl in *.
  - destruct (float_of_int q) as [f|] eqn:Hf; simpl; [|constructor].
    constructor; [|constructor]. exists f. by split.
  - inversion H as [|? ? Hit Hrest]; subst.
    destruct (decide (name it = n)).
    + pose proof (merge_line_subtotal_ok it q) as Hm.
      destruct (merge_line it q) as [it' r]; simpl in *.
      destruct Hr as [[] ->]. constructor; [by apply Hm | exact Hrest].
    + destruct (add_to_cart rest n p q) as [rest' r]; simpl in *.
      constructor; [exact Hit | by apply IH].
Qed.

Lemma remove_from_cart_subtotal_ok py c n q :
  returns (snd (remove_from_cart py c n q)) →
  Forall subtotal_ok c → Forall subtotal_ok (fst (remove_from_cart py c n q)).
Proof.
  induction c as [|it rest IH]; intros Hr H; simpl in *.
  - constructor.
  - inversion H as [|? ? Hit Hrest]; subst.
    destruct (matches py n it).
    + destruct (qty it <=? q); simpl; [exact Hrest|].
      pose proof (reduce_line_subtotal_ok it q) as Hm.
      destruct (reduce_line it q) as [it' [[]|]]; simpl in *.
      * constructor; [by apply Hm | exact Hrest].
      * destruct Hr as [a Ha]. discriminate Ha.
    + destruct (remove_from_cart py rest n q) as [rest' r]; simpl in *.
      constructor; [exact Hit | by apply IH].
Qed.

(** While every call of a history returns, each line's stored subtotal is
    the float product of its stored price and its stored quantity (0.1 three
    times is stored as 0.30000000000000004). *)
Lemma subtotal_ok_while_calls_return py (ops : list cart_op) :
  ∀ state, Forall subtotal_ok (get_cart state) → all_return py ops state →
           Forall subtotal_ok (get_cart (run_ops py ops state)).
Proof.
  induction ops as [|op ops IH]; intros state Hs Hr; [exact Hs|].
  destruct Hr as [Hop Hr]. simpl. apply IH; [|exact Hr].
  rewrite get_cart_apply_op. destruct op as [n p q|n q]; simpl in Hop.
  - rewrite snd_add_to_cart_state in Hop. by apply add_to_cart_subtotal_ok.
  - rewrite snd_remove_from_cart_state in Hop.
    by apply remove_from_cart_subtotal_ok.
Qed.

Lemma subtotal_ok_while_calls_return_witness :
  Forall subtotal_ok
    (get_cart (run_ops ascii_str
                 [AddItem "Sugar" (fl2 7205759403792794 (-56)) 3;
                  AddItem "Sugar" (fl 5) 2; RemoveItem "SUGAR" 1]
                 ali_session))
  ∧ get_cart (run_ops ascii_str
                [AddItem "Sugar" (fl2 7205759403792794 (-56)) 3] ali_session)
    = [LineItem "Sugar" (fl2 7205759403792794 (-56)) 3
                (fl2 5404319552844596 (-54))].
Proof.
  split; [|vm_compute; reflexivity].
  refine (subtotal_ok_while_calls_return ascii_str
            [AddItem "Sugar" (fl2 7205759403792794 (-56)) 3;
             AddItem "Sugar" (fl 5) 2; RemoveItem "SUGAR" 1]
            ali_session _ _).
  - constructor.
  - vm_compute. repeat split; eexists; reflexivity.
Defined.

(** C8: the invariant fails on the code.  A merging [add_to_cart_state]
    assigns the new quantity first and computes the product after it; for a
    quantity beyond the range of a float the product raises [OverflowError],
    and the cart keeps the line with the new quantity and the old subtotal. *)
Theorem overflowing_add_leaves_stale_subtotal (state : session) :
  let s1 := fst (add_to_cart_state (with_empty_cart state) "Rice" (fl 1) 1) in
  let '(s2, r2) := add_to_cart_state s1 "Rice" (fl 1) (10 ^ 400) in
  get_cart s1 = [LineItem "Rice" (fl 1) 1 (fl 1)]
  ∧ r2 = OverflowError
  ∧ get_cart s2 = [LineItem "Rice" (fl 1) (10 ^ 400 + 1) (fl 1)]
  ∧ float_of_int (10 ^ 400 + 1) = None
  ∧ ¬ Forall subtotal_ok (get_cart s2).
Proof.
  assert (Hf : float_of_int (1 + 10 ^ 400) = None) by (vm_compute; reflexivity).
  unfold add_to_cart_state, with_empty_cart. rewrite get_cart_set_cart.
  cbn [add_to_cart fst].
  replace (float_of_int 1) with (Some (fl 1)) by (vm_compute; reflexivity).
  cbn [fst]. rewrite get_cart_set_cart. cbn [add_to_cart name].
  rewrite decide_True by reflexivity.
  unfold merge_line. cbn [qty]. rewrite Hf. cbn [name price subtotal].
  replace (fmul (fl 1) (fl 1)) with (fl 1) by (vm_compute; reflexivity).
  replace (10 ^ 400 + 1) with (1 + 10 ^ 400) by apply Z.add_comm.
  split; [reflexivity|]. split; [reflexivity|]. split; [reflexivity|].
  split; [exact Hf|].
  intros H. inversion H as [|? ? [f [Hq _]] _]; subst.
  cbn [qty] in Hq. rewrite Hf in Hq. discriminate Hq.
Qed.

(** ** Names in the cart (C1, C2) *)

Lemma merge_line_name it q : name (fst (merge_line it q)) = name it.
Proof. unfold merge_line. by destruct (float_of_int (qty it + q)). Qed.

Lemma reduce_line_name it q : name (fst (reduce_line it q)) = name it.
Proof. unfold reduce_line. by destruct (float_of_int (qty it - q)). Qed.

(** What [add_to_cart] does to the list of names: nothing when the name is
    there, one more name at the end when it is not and the call returns. *)
Lemma add_to_cart_names c n p q :
  map name (fst (add_to_cart c n p q))
  = if decide (n ∈ map name c) then map name c
    else match float_of_int q with
         | Some _ => (map name c ++ [n])%list
         | None => map name c
         end.
Proof.
  induction c as [|it rest IH].
  - destruct (decide (n ∈ map name [])) as [Hin|_].
    + by apply not_elem_of_nil in Hin.
    + cbn [add_to_cart]. by destruct (float_of_int q).
  - change (map name (it :: rest)) with (name it :: map name rest).
    cbn [add_to_cart].
    destruct (decide (name it = n)) as [Heq|Hne].
    + pose proof (merge_line_name it q) as Hm.
      destruct (merge_line it q) as [it' r]; simpl in *. rewrite Hm.
      destruct (decide (n ∈ name it :: map name rest)) as [_|Hnin]; [reflexivity|].
      exfalso. apply Hnin. subst. apply list_elem_of_here.
    + destruct (add_to_cart rest n p q) as [rest' r]; simpl in *.
      rewrite IH.
      destruct (decide (n ∈ map name rest)) as [Hin|Hnin];
        destruct (decide (n ∈ name it :: map name rest)) as [Hin'|Hnin'];
        try reflexivity.
      * exfalso. apply Hnin'. by apply list_elem_of_further.
      * exfalso. apply elem_of_cons in Hin' as [->|Hin']; [by apply Hne | by apply Hnin].
      * by destruct (float_of_int q).
Qed.

Lemma remove_from_cart_names_sublist py c n q :
  sublist (map name (fst (remove_from_cart py c n q))) (map name c).
Proof.
  induction c as [|it rest IH]; simpl.
  - constructor.
  - destruct (matches py n it).
    + destruct (qty it <=? q); simpl.
      * by apply sublist_cons.
      * pose proof (reduce_line_name it q) as Hm.
        destruct (reduce_line it q) as [it' [[]|]]; simpl in *;
          rewrite Hm; reflexivity.
    + destruct (remove_from_cart py rest n q) as [rest' r]; simpl in *.
      by apply sublist_skip.
Qed.

Lemma add_to_cart_nodup c n p q :
  NoDup (map name c) → NoDup (map name (fst (add_to_cart c n p q))).
Proof.
  intros Hc. rewrite add_to_cart_names.
  destruct (decide (n ∈ map name c)) as [Hin|Hnin]; [exact Hc|].
  destruct (float_of_int q); [|exact Hc].
  apply NoDup_app. split; [exact Hc|]. split.
  - intros x Hx Hx'. apply list_elem_of_singleton in Hx'. by subst.
  - apply NoDup_singleton.
Qed.

(** What the exact comparison of [add_to_cart_state] does guarantee: no two
    lines of a cart built from the empty one carry the very same name. *)
Lemma exact_names_unique py (state : session) (ops : list cart_op) :
  NoDup (map name (get_cart (run_ops py ops (with_empty_cart state)))).
Proof.
  apply (run_ops_invariant py (fun c => NoDup (map name c))).
  - intros c n p q Hc. by apply add_to_cart_nodup.
  - intros c n q Hc.
    eapply sublist_NoDup; [exact Hc | apply remove_from_cart_names_sublist].
  - constructor.
Qed.

(** C1: the invariant fails on the code.  [add_to_cart_state] compares names
    with [==], so adding "chicken" to a cart that holds "Chicken" appends a
    second line instead of raising the quantity of the first: the cart then
    holds two lines whose names are equal up to case, for the ASCII folding
    and for every [lower] that folds "Chicken" and "chicken" together. *)
Theorem add_appends_name_differing_in_case (state : session) :
  let c := get_cart (run_ops ascii_str
                       [AddItem "Chicken" (fl 500) 2; AddItem "chicken" (fl 500) 1]
                       (with_empty_cart state)) in
  c = [ LineItem "Chicken" (fl 500) 2 (fl 1000);
        LineItem "chicken" (fl 500) 1 (fl 500) ]
  ∧ same_name_ci ascii_str "Chicken" "chicken"
  ∧ ¬ unique_ci ascii_str c
  ∧ ∀ py, same_name_ci py "Chicken" "chicken" → ¬ unique_ci py c.
Proof.
  assert (Hc : get_cart (run_ops ascii_str
                 [AddItem "Chicken" (fl 500) 2; AddItem "chicken" (fl 500) 1]
                 (with_empty_cart state))
               = [ LineItem "Chicken" (fl 500) 2 (fl 1000);
                   LineItem "chicken" (fl 500) 1 (fl 500) ]).
  { unfold run_ops, with_empty_cart. cbn [fold_left apply_op].
    rewrite !get_cart_add, get_cart_set_cart. vm_compute. reflexivity. }
  cbv zeta. rewrite Hc. split; [reflexivity|]. split; [reflexivity|].
  assert (Hgen : ∀ py, same_name_ci py "Chicken" "chicken" →
                       ¬ unique_ci py [ LineItem "Chicken" (fl 500) 2 (fl 1000);
                                        LineItem "chicken" (fl 500) 1 (fl 500) ]).
  { intros py Hci [Hfirst _]. inversion Hfirst as [|? ? Hne _]; subst.
    by apply Hne. }
  split; [apply Hgen; reflexivity | exact Hgen].
Qed.

(** Adding under a name the cart does not hold yet, then merging any number
    of further calls under that very name: one line at the end of the cart,
    at the price of the first call. *)
Lemma add_to_cart_merges c it n p q :
  name it = n → Forall (fun x => name x ≠ n) c →
  add_to_cart (c ++ [it]) n p q
  = ((c ++ [fst (merge_line it q)])%list, snd (merge_line it q)).
Proof.
  intros Hit. induction c as [|x rest IH]; intros Hc; simpl.
  - rewrite decide_True by exact Hit. by destruct (merge_line it q).
  - inversion Hc as [|? ? Hx Hrest]; subst.
    rewrite decide_False by exact Hx. by rewrite IH.
Qed.

Lemma add_to_cart_appends c n p q f :
  Forall (fun x => name x ≠ n) c → float_of_int q = Some f →
  add_to_cart c n p q = ((c ++ [LineItem n p q (fmul p f)])%list, Returned tt).
Proof.
  intros Hc Hf. induction c as [|x rest IH]; simpl.
  - by rewrite Hf.
  - inversion Hc as [|? ? Hx Hrest]; subst.
    rewrite decide_False by exact Hx. by rewrite IH.
Qed.

Lemma add_to_cart_append_raises c n p q :
  Forall (fun x => name x ≠ n) c → float_of_int q = None →
  add_to_cart c n p q = (c, OverflowError).
Proof.
  intros Hc Hf. induction c as [|x rest IH]; simpl.
  - by rewrite Hf.
  - inversion Hc as [|? ? Hx Hrest]; subst.
    rewrite decide_False by exact Hx. by rewrite IH.
Qed.

Lemma run_adds_merged py n c (calls : list (float * Z)) :
  Forall (fun x => name x ≠ n) c →
  ∀ it state, name it = n → subtotal_ok it →
  get_cart state = (c ++ [it])%list →
  all_return py (map (fun pq => AddItem n (fst pq) (snd pq)) calls) state →
  ∃ f, float_of_int (qty it + sum_qty calls) = Some f
       ∧ get_cart (run_ops py (map (fun pq => AddItem n (fst pq) (snd pq)) calls)
                     state)
         = (c ++ [LineItem n (price it) (qty it + sum_qty calls)
                    (fmul (price it) f)])%list.
Proof.
  intros Hc. induction calls as [|[p q] calls IH]; intros it state Hn Hok Hs Hr.
  - simpl. rewrite Hs, Z.add_0_r. destruct Hok as (f & Hf & Hsub).
    exists f. split; [exact Hf|]. do 2 f_equal.
    destruct it as [n' p' q' s']; simpl in *. by subst.
  - cbn [map all_return fst snd] in Hr. destruct Hr as [Hop Hr].
    cbn [op_returns] in Hop. rewrite snd_add_to_cart_state, Hs in Hop.
    rewrite (add_to_cart_merges c it n p q Hn Hc) in Hop. cbn [snd] in Hop.
    cbn [map run_ops fold_left fst snd].
    fold (run_ops py (map (fun pq => AddItem n (fst pq) (snd pq)) calls)
                  (apply_op py state (AddItem n p q))).
    destruct (IH (fst (merge_line it q)) (apply_op py state (AddItem n p q)))
      as (f & Hf & Hcart).
    + by rewrite merge_line_name.
    + apply merge_line_subtotal_ok. destruct Hop as [[] Hop]. exact Hop.
    + cbn [apply_op]. rewrite get_cart_add, Hs.
      by rewrite (add_to_cart_merges c it n p q Hn Hc).
    + exact Hr.
    + assert (Hq : qty (fst (merge_line it q)) = qty it + q).
      { unfold merge_line. by destruct (float_of_int (qty it + q)). }
      assert (Hp : price (fst (merge_line it q)) = price it).
      { unfold merge_line. by destruct (float_of_int (qty it + q)). }
      rewrite Hq, Hp in *.
      change (sum_qty ((p, q) :: calls)) with (q + sum_qty calls).
      replace (qty it + (q + sum_qty calls)) with (qty it + q + sum_qty calls) by lia.
      exists f. split; [exact Hf | exact Hcart].
Qed.

Lemma filter_other_names n (c : list line_item) :
  Forall (fun x => name x ≠ n) c → filter (fun it => name it = n) c = [].
Proof.
  induction 1 as [|x rest Hx _ IH]; [reflexivity|].
  rewrite filter_cons_False; [exact IH | exact Hx].
Qed.

(** C2 (amended): a non-empty sequence of [add_to_cart_state] calls that
    all use exactly the same name and all return, on a cart that has no
    line under that name, leaves exactly one line for the name, at the end
    of the cart; its quantity is the sum of the calls' quantities and its
    price is the price of the first call, which no merging call overwrites,
    so that its subtotal is the float product of the first call's price and
    that quantity. *)
Theorem same_name_adds_keep_first_price
    (py : PyStr) (state : session) (n : string) (p1 : float) (q1 : Z)
    (calls : list (float * Z)) :
  Forall (fun x => name x ≠ n) (get_cart state) →
  all_return py (map (fun pq => AddItem n (fst pq) (snd pq)) ((p1, q1) :: calls))
             state →
  let total_qty := sum_qty ((p1, q1) :: calls) in
  let c' := get_cart (run_ops py (map (fun pq => AddItem n (fst pq) (snd pq))
                                      ((p1, q1) :: calls)) state) in
  ∃ f, float_of_int total_qty = Some f
       ∧ c' = (get_cart state ++ [LineItem n p1 total_qty (fmul p1 f)])%list
       ∧ length (filter (fun it => name it = n) c') = 1%nat.
Proof.
  intros Hc Hr total_qty c'.
  cbn [map all_return fst snd op_returns] in Hr. destruct Hr as [Hop Hr].
  rewrite snd_add_to_cart_state in Hop.
  destruct (float_of_int q1) as [f1|] eqn:Hf1.
  2:{ rewrite (add_to_cart_append_raises _ n p1 q1 Hc Hf1) in Hop.
      destruct Hop as [a Ha]. discriminate Ha. }
  destruct (run_adds_merged py n (get_cart state) calls Hc
              (LineItem n p1 q1 (fmul p1 f1))
              (apply_op py state (AddItem n p1 q1))) as (f & Hf & Hcart).
  - reflexivity.
  - exists f1. by split.
  - cbn [apply_op]. rewrite get_cart_add.
    by rewrite (add_to_cart_appends _ n p1 q1 f1 Hc Hf1).
  - exact Hr.
  - exists f. split; [exact Hf|].
    assert (Hc' : c' = (get_cart state
                        ++ [LineItem n p1 total_qty (fmul p1 f)])%list)
      by exact Hcart.
    split; [exact Hc'|]. rewrite Hc'.
    rewrite filter_app, length_app, (filter_other_names n _ Hc).
    rewrite filter_cons_True; reflexivity.
Qed.

Lemma same_name_adds_keep_first_price_witness :
  ∃ f, float_of_int 3 = Some f
       ∧ get_cart (run_ops ascii_str
                     [AddItem "Chicken" (fl 500) 2; AddItem "Chicken" (fl 600) 1]
                     ali_session)
         = [LineItem "Chicken" (fl 500) 3 (fmul (fl 500) f)].
Proof.
  destruct (same_name_adds_keep_first_price ascii_str ali_session "Chicken"
              (fl 500) 2 [(fl 600, 1)]) as (f & Hf & Hc & _).
  - constructor.
  - vm_compute. repeat split; eexists; reflexivity.
  - exists f. split; [exact Hf | exact Hc].
Defined.

(** C2 as stated fails: after ("Chicken", 500, 2) and ("Chicken", 600, 1)
    the one line has quantity 3 and subtotal 1500, not 3 times the last
    call's price 600. *)
Lemma merged_line_not_at_last_price :
  ¬ single_line_at
      (get_cart (run_ops ascii_str
                   [AddItem "Chicken" (fl 500) 2; AddItem "Chicken" (fl 600) 1]
                   ali_session))
      (2 + 1) (fl 600).
Proof.
  intros (it & f & Hc & _ & Hf & Hsub).
  vm_compute in Hc. injection Hc as <-.
  vm_compute in Hf. injection Hf as <-.
  vm_compute in Hsub. discriminate Hsub.
Qed.

(** ** Removal (C3) *)

Lemma remove_from_cart_found py l1 it l2 n q :
  no_match py n l1 → matches py n it = true →
  remove_from_cart py (l1 ++ it :: l2) n q
  = if qty it <=? q then ((l1 ++ l2)%list, Returned (removed_result n))
    else ((l1 ++ fst (reduce_line it q) :: l2)%list,
          match snd (reduce_line it q) with
          | Returned _ => Returned (reduced_result n q)
          | OverflowError => OverflowError
          end).
Proof.
  intros Hl1 Hit. induction Hl1 as [|x rest Hx _ IH]; simpl.
  - rewrite Hit. destruct (qty it <=? q); [reflexivity|].
    by destruct (reduce_line it q) as [it' [[]|]].
  - rewrite Hx, IH. destruct (qty it <=? q); reflexivity.
Qed.

Lemma remove_from_cart_not_found py c n q :
  no_match py n c →
  remove_from_cart py c n q = (c, Returned (not_present_result n)).
Proof.
  induction 1 as [|x rest Hx _ IH]; simpl; [reflexivity|].
  rewrite Hx, IH. reflexivity.
Qed.

Lemma set_cart_same state c : cart state = Some c → set_cart state (Some c) = state.
Proof. destruct state; simpl; intros ->; reflexivity. Qed.

(** In a cart whose names are unique up to case, the line that matches is
    the only one that does. *)
Lemma unique_ci_one_match py l1 it l2 n :
  unique_ci py (l1 ++ it :: l2) → matches py n it = true →
  no_match py n (l1 ++ l2).
Proof.
  unfold matches. intros Hu Hit. apply bool_decide_eq_true in Hit.
  assert (Hother : ∀ x, ¬ same_name_ci py (name x) (name it) →
                        matches py n x = false).
  { intros x Hx. apply bool_decide_eq_false. intros Hxn. apply Hx.
    unfold same_name_ci. congruence. }
  induction l1 as [|x rest IH]; simpl in *.
  - destruct Hu as [Hall _]. unfold no_match.
    eapply Forall_impl; [exact Hall|]. intros y Hy. apply Hother.
    intros Hyi. apply Hy. unfold same_name_ci in *. congruence.
  - destruct Hu as [Hall Hu]. constructor.
    + apply Hother. apply Forall_app in Hall as [_ Hall].
      by inversion Hall.
    + by apply IH.
Qed.

(** What [remove_from_cart_state] does, for every [lower]: it works on the
    first line whose name matches up to case.  When that line's quantity is
    at most the requested one, the line is removed, every other line is
    kept, and the result is "Removed ..."; a line matching the name is left
    exactly when a later line matched it too, and none is left in a cart
    whose names are unique up to case.  When the line's quantity is larger,
    it is lowered by the requested quantity; the subtotal is then the float
    product of the new quantity and the stored price and the result is
    "Reduced ...", unless the new quantity is beyond the range of a float:
    the call then raises and the line keeps its old subtotal.  When no line
    matches, the result is a failure and the session dict is left as it
    was. *)
Theorem remove_from_cart_state_outcomes
    (py : PyStr) (state : session) (n : string) (q : Z) :
  (∀ l1 it l2,
     cart state = Some (l1 ++ it :: l2)%list → no_match py n l1 →
     matches py n it = true →
     (qty it ≤ q →
        remove_from_cart_state py state n q
        = (set_cart state (Some (l1 ++ l2)%list), Returned (removed_result n))
        ∧ (no_match py n (l1 ++ l2) ↔ no_match py n l2)
        ∧ (unique_ci py (l1 ++ it :: l2) → no_match py n (l1 ++ l2)))
     ∧ (q < qty it → ∀ f, float_of_int (qty it - q) = Some f →
        remove_from_cart_state py state n q
        = (set_cart state
             (Some (l1 ++ LineItem (name it) (price it) (qty it - q)
                            (fmul f (price it)) :: l2)%list),
           Returned (reduced_result n q)))
     ∧ (q < qty it → float_of_int (qty it - q) = None →
        remove_from_cart_state py state n q
        = (set_cart state
             (Some (l1 ++ LineItem (name it) (price it) (qty it - q)
                            (subtotal it) :: l2)%list),
           OverflowError)))
  ∧ (no_match py n (get_cart state) →
     remove_from_cart_state py state n q
     = (state, Returned (not_present_result n))).
Proof.
  split.
  - intros l1 it l2 Hcart Hl1 Hit.
    unfold remove_from_cart_state. rewrite Hcart.
    rewrite (remove_from_cart_found py l1 it l2 n q Hl1 Hit).
    split; [|split].
    + intros Hle. apply Z.leb_le in Hle. rewrite Hle.
      split; [reflexivity|]. split.
      * unfold no_match. rewrite Forall_app. tauto.
      * intros Hu. by apply (unique_ci_one_match py l1 it l2).
    + intros Hlt f Hf. apply Z.leb_gt in Hlt. rewrite Hlt.
      unfold reduce_line. rewrite Hf. reflexivity.
    + intros Hlt Hf. apply Z.leb_gt in Hlt. rewrite Hlt.
      unfold reduce_line. rewrite Hf. reflexivity.
  - intros Hno. unfold remove_from_cart_state, get_cart in *.
    destruct (cart state) as [c|] eqn:Hcart; simpl in Hno; [|reflexivity].
    rewrite (remove_from_cart_not_found py c n q Hno).
    by rewrite set_cart_same.
Qed.

Lemma remove_from_cart_state_outcomes_witness :
  remove_from_cart_state ascii_str
    (set_cart ali_session (Some [LineItem "Chicken" (fl 500) 3 (fl 1500)]))
    "CHICKEN" 1
  = (set_cart ali_session (Some [LineItem "Chicken" (fl 500) 2 (fl 1000)]),
     Returned (reduced_result "CHICKEN" 1))
  ∧ remove_from_cart_state ascii_str
      (set_cart ali_session (Some [LineItem "Chicken" (fl 500) 2 (fl 1000)]))
      "Chicken" 5
    = (set_cart ali_session (Some []), Returned (removed_result "Chicken"))
  ∧ remove_from_cart_state ascii_str
      (set_cart ali_session (Some [LineItem "Chicken" (fl 500) 2 (fl 1000)]))
      "Mutton" 1
    = (set_cart ali_session (Some [LineItem "Chicken" (fl 500) 2 (fl 1000)]),
       Returned (not_present_result "Mutton")).
Proof.
  split; [|split].
  - refine (proj1 (proj2 (proj1 (remove_from_cart_state_outcomes ascii_str
             (set_cart ali_session (Some [LineItem "Chicken" (fl 500) 3 (fl 1500)]))
             "CHICKEN" 1) [] (LineItem "Chicken" (fl 500) 3 (fl 1500)) []
             eq_refl (Forall_nil_2 _) eq_refl)) _ (fl 2) _).
    + reflexivity.
    + vm_compute. reflexivity.
  - refine (proj1 (proj1 (proj1 (remove_from_cart_state_outcomes ascii_str
             (set_cart ali_session (Some [LineItem "Chicken" (fl 500) 2 (fl 1000)]))
             "Chicken" 5) [] (LineItem "Chicken" (fl 500) 2 (fl 1000)) []
             eq_refl (Forall_nil_2 _) eq_refl) _)).
    discriminate.
  - refine (proj2 (remove_from_cart_state_outcomes ascii_str
             (set_cart ali_session (Some [LineItem "Chicken" (fl 500) 2 (fl 1000)]))
             "Mutton" 1) _).
    repeat constructor.
Defined.

(** C3: the claim fails on a cart that the code builds.  Because
    [add_to_cart_state] compares names with [==], "Chicken" and "chicken"
    are two lines; a removal of "CHICKEN" with quantity 5 takes the first
    away and answers "Removed ...", and a line matching "CHICKEN" is still
    in the cart. *)
Theorem removed_name_still_in_cart :
  let s := run_ops ascii_str
             [AddItem "Chicken" (fl 500) 2; AddItem "chicken" (fl 500) 1]
             ali_session in
  remove_from_cart_state ascii_str s "CHICKEN" 5
  = (set_cart s (Some [LineItem "chicken" (fl 500) 1 (fl 500)]),
     Returned (removed_result "CHICKEN"))
  ∧ ¬ no_match ascii_str "CHICKEN" [LineItem "chicken" (fl 500) 1 (fl 500)].
Proof.
  split; [vm_compute; reflexivity|].
  intros H. inversion H as [|? ? Hm _]. discriminate Hm.
Qed.

(** ** Totals (C9, C10) *)




Lemma reduce_line_fields it q :
  qty (fst (reduce_line it q)) = qty it - q
  ∧ price (fst (reduce_line it q)) = price it.
Proof. unfold reduce_line. by destruct (float_of_int (qty it - q)). Qed.




(** With positive price and quantities too the total need not go down: a
    subtotal of 1 beside one of 10^16 is absorbed by the float sum, and
    removing it leaves the total at 10^16. *)
Example remove_absorbed_keeps_total :
  let c := [LineItem "Big" (fl (10 ^ 16)) 1 (fl (10 ^ 16));
            LineItem "Small" (fl 1) 1 (fl 1)] in
  let c' := fst (remove_from_cart ascii_str c "small" 1) in
  Forall subtotal_ok c
  ∧ c' = [LineItem "Big" (fl (10 ^ 16)) 1 (fl (10 ^ 16))]
  ∧ total (compute_cart_summary c) = fl (10 ^ 16)
  ∧ total (compute_cart_summary c') = fl (10 ^ 16).
Proof.
  split.
  - repeat constructor; eexists; split; vm_compute; reflexivity.
  - vm_compute. repeat split.
Qed.

(** The two loops build the same rows and the same total. *)
Lemma payload_fold_rows c rows tot ls :
  Forall2 same_row rows ls →
  Forall2 same_row (fst (fold_left payload_step c (rows, tot)))
          (lines (fold_left summary_step c {| lines := ls; total := tot |}))
  ∧ snd (fold_left payload_step c (rows, tot))
    = total (fold_left summary_step c {| lines := ls; total := tot |}).
Proof.
  revert rows tot ls. induction c as [|it rest IH]; intros rows tot ls Hrows.
  - simpl. split; [exact Hrows | reflexivity].
  - simpl. apply IH. apply Forall2_app; [exact Hrows|].
    constructor; [|constructor]. repeat split.
Qed.

(** The payload that [checkout] builds carries the total and the rows of
    [compute_cart_summary]. *)
Lemma build_payload_agrees_with_summary
    (state : session) (c : list line_item) (payment : string) :
  payload_total (build_payload state c payment)
  = total (compute_cart_summary c)
  ∧ Forall2 same_row (items (build_payload state c payment))
            (lines (compute_cart_summary c)).
Proof.
  unfold build_payload, items_payload, compute_cart_summary.
  destruct (payload_fold_rows c [] fzero [] (List.Forall2_nil same_row))
    as [Hrows Htot].
  destruct (fold_left payload_step c ([], fzero)) as [rows tot]; simpl in *.
  split; [exact Htot | exact Hrows].
Qed.

(** ** Checkout (C6, C7) *)

(** [checkout] on a session that exists and has a line in its cart: the
    request is posted, and the answer decides. *)
Lemma checkout_posts cfg bill sid payment w state :
  sessions w !! sid = Some state → get_cart state ≠ [] →
  checkout cfg bill sid payment w
  = let request := checkout_request cfg state payment in
    let w1 := {| sessions := sessions w; timers := timers w;
                 outbox := (outbox w ++ [request])%list |} in
    match bill request with
    | PostRaises err =>
        (w1, Raise 502 (DetailText ("Failed to forward to billing API: " +:+ err)))
    | PostResponse st body =>
        if bool_decide (st = 200 ∨ st = 201) then
          ({| sessions := <[sid := set_cart state (Some [])]> (sessions w);
              timers := (timers w ++ [(sid, 30)])%list;
              outbox := (outbox w ++ [request])%list |},
           Ok {| bill_api_status := st; payload_sent := sent_payload request |})
        else (w1, Raise 502 (DetailBilling st body))
    end.
Proof.
  intros Hs Hc. unfold checkout, checkout_request. rewrite Hs.
  destruct (get_cart state) as [|it rest]; [done|]. reflexivity.
Qed.

(** C6 (amended): [checkout] on an existing session with a non-empty cart
    posts the order.  When the billing API answers with status 200 or 201,
    the session's cart becomes the empty list, nothing else in the store
    changes, and a deletion of the session after 30 seconds is scheduled.
    When the call raises, or the API answers with any other status (other
    2xx statuses included), the sessions and the scheduled deletions are
    exactly as before the call and the handler raises 502. *)
Theorem checkout_clears_cart_on_200_or_201
    (cfg : config) (bill : billing_request → post_outcome)
    (sid payment : string) (w : world) (state : session) :
  sessions w !! sid = Some state → get_cart state ≠ [] →
  let request := checkout_request cfg state payment in
  let w' := fst (checkout cfg bill sid payment w) in
  let r := snd (checkout cfg bill sid payment w) in
  (∀ st body, bill request = PostResponse st body → st = 200 ∨ st = 201 →
     sessions w' = <[sid := set_cart state (Some [])]> (sessions w)
     ∧ timers w' = (timers w ++ [(sid, 30)])%list
     ∧ r = Ok {| bill_api_status := st; payload_sent := sent_payload request |})
  ∧ (∀ st body, bill request = PostResponse st body → st ≠ 200 → st ≠ 201 →
     sessions w' = sessions w ∧ timers w' = timers w
     ∧ r = Raise 502 (DetailBilling st body))
  ∧ (∀ err, bill request = PostRaises err →
     sessions w' = sessions w ∧ timers w' = timers w
     ∧ r = Raise 502 (DetailText ("Failed to forward to billing API: " +:+ err))).
Proof.
  intros Hs Hc request w' r. subst w' r.
  rewrite (checkout_posts cfg bill sid payment w state Hs Hc).
  fold request. cbv zeta. split; [|split].
  - intros st body Hb Hst. rewrite Hb.
    rewrite bool_decide_eq_true_2 by exact Hst. repeat split.
  - intros st body Hb Hst Hst'. rewrite Hb.
    rewrite bool_decide_eq_false_2 by lia. repeat split.
  - intros err Hb. rewrite Hb. repeat split.
Qed.

Lemma checkout_clears_cart_on_200_or_201_witness :
  let w' := fst (checkout default_config (billing_answers 201)
                   "sess_1700000000000" "Cash on Delivery" ali_world) in
  sessions w' = <["sess_1700000000000" := set_cart ali_session (Some [])]>
                  (sessions ali_world)
  ∧ timers w' = [("sess_1700000000000", 1800); ("sess_1700000000000", 30)].
Proof.
  pose proof (proj1 (checkout_clears_cart_on_200_or_201 default_config
                (billing_answers 201) "sess_1700000000000" "Cash on Delivery"
                ali_world (set_cart ali_session (Some chicken_cart))
                (lookup_singleton_eq _ _) ltac:(discriminate))
              201 "{}" eq_refl (or_intror eq_refl)) as (Hs & Ht & _).
  split; [exact Hs | exact Ht].
Defined.

(** C6 as stated fails: 204 is a 2xx status, and after a billing answer 204
    the cart is not cleared and no deletion is scheduled. *)
Lemma checkout_204_keeps_cart :
  let w' := fst (checkout default_config (billing_answers 204)
                   "sess_1700000000000" "Cash on Delivery" ali_world) in
  is_2xx 204
  ∧ sessions w' !! "sess_1700000000000"
    = Some (set_cart ali_session (Some chicken_cart))
  ∧ timers w' = timers ali_world.
Proof.
  cbv zeta.
  rewrite (checkout_posts default_config (billing_answers 204)
             "sess_1700000000000" "Cash on Delivery" ali_world
             (set_cart ali_session (Some chicken_cart))
             (lookup_singleton_eq _ _) ltac:(discriminate)).
  split; [unfold is_2xx; lia|]. split.
  - apply lookup_singleton_eq.
  - reflexivity.
Qed.

(** C7: [checkout] on an existing session whose cart has no line raises 400
    "Cart is empty." whatever the billing API would answer; the sessions,
    the scheduled deletions and the list of requests posted to the billing
    API are all as they were, so no payload was built into a request and no
    call was made. *)
Theorem checkout_empty_cart_rejected
    (cfg : config) (bill : billing_request → post_outcome)
    (sid payment : string) (w : world) (state : session) :
  sessions w !! sid = Some state → get_cart state = [] →
  checkout cfg bill sid payment w = (w, Raise 400 (DetailText "Cart is empty."))
  ∧ outbox (fst (checkout cfg bill sid payment w)) = outbox w
  ∧ sessions (fst (checkout cfg bill sid payment w)) = sessions w.
Proof.
  intros Hs Hc.
  assert (H : checkout cfg bill sid payment w
              = (w, Raise 400 (DetailText "Cart is empty."))).
  { unfold checkout. rewrite Hs, Hc. reflexivity. }
  rewrite H. repeat split.
Qed.

Lemma checkout_empty_cart_rejected_witness :
  let w := {| sessions := {[ "sess_1700000000000" := ali_session ]};
              timers := []; outbox := [] |} in
  checkout default_config (billing_answers 200) "sess_1700000000000"
           "Online Transfer" w
  = (w, Raise 400 (DetailText "Cart is empty.")).
Proof.
  exact (proj1 (checkout_empty_cart_rejected default_config (billing_answers 200)
                  "sess_1700000000000" "Online Transfer"
                  {| sessions := {[ "sess_1700000000000" := ali_session ]};
                     timers := []; outbox := [] |}
                  ali_session (lookup_singleton_eq _ _) eq_refl)).
Defined.

(** ** Sessions (C4, C5) *)

Lemma make_session_id_inj t t' : make_session_id t = make_session_id t' → t = t'.
Proof.
  unfold make_session_id. intros H.
  apply (inj (String.app "sess_")) in H. by apply (inj pretty) in H.
Qed.

(** What a successful [session_create] did. *)
Lemma session_create_ok py cfg now_ms now req w w' r :
  session_create py cfg now_ms now req w = (w', Ok r) →
  new_session_id r = make_session_id now_ms
  ∧ w' = {| sessions := <[make_session_id now_ms := new_session now (new_user r)]>
                          (sessions w);
            timers := (timers w
                       ++ [(make_session_id now_ms, AUTO_LOGOUT_SECONDS cfg)])%list;
            outbox := outbox w |}.
Proof.
  unfold session_create.
  destruct (bool_decide (str_strip py (req_name req) = "")); [discriminate|].
  destruct (negb (validate_mobile py (str_strip py (req_mobile req))));
    [discriminate|].
  destruct (bool_decide (str_strip py (req_address req) = "")
            || (str_len py (str_strip py (req_address req)) <? 3)%nat);
    [discriminate|].
  intros H. injection H as <- <-. split; reflexivity.
Qed.

(** C5 (amended): a successful [session_create] stores, under the id
    "sess_" followed by the clock in milliseconds, a new session record
    whose cart is the empty list, and schedules its deletion; every session
    stored under another id is kept as it was, and the id differs from the
    id of any creation made at a different millisecond.  The id is not
    checked against the store: a session already stored under it is
    replaced. *)
Theorem session_create_stores_under_clock_id
    (py : PyStr) (cfg : config) (now_ms : Z) (now : float)
    (req : SessionCreateRequest) (w w' : world) (r : session_created) :
  session_create py cfg now_ms now req w = (w', Ok r) →
  new_session_id r = make_session_id now_ms
  ∧ sessions w' !! new_session_id r = Some (new_session now (new_user r))
  ∧ cart (new_session now (new_user r)) = Some []
  ∧ (∀ sid, sid ≠ new_session_id r → sessions w' !! sid = sessions w !! sid)
  ∧ (∀ t, t ≠ now_ms → make_session_id t ≠ new_session_id r)
  ∧ timers w' = (timers w ++ [(new_session_id r, AUTO_LOGOUT_SECONDS cfg)])%list.
Proof.
  intros H. apply session_create_ok in H as [Hid ->]. rewrite Hid. simpl.
  split; [reflexivity|]. split; [apply lookup_insert_eq|].
  split; [reflexivity|]. split; [|split].
  - intros sid Hne. by apply lookup_insert_ne.
  - intros t Hne Heq. by apply Hne, make_session_id_inj.
  - reflexivity.
Qed.

Lemma session_create_stores_under_clock_id_witness :
  let '(w', _) := session_create ascii_str default_config 1700000000000
                    (fl 1700000000) ali_request empty_world in
  sessions w' !! "sess_1700000000000" = Some (new_session (fl 1700000000) ali).
Proof.
  exact (proj1 (proj2 (session_create_stores_under_clock_id ascii_str
           default_config 1700000000000 (fl 1700000000) ali_request
           empty_world _ _ eq_refl))).
Defined.

(** C5 as stated fails: two creations at the same millisecond get the same
    id, which is already in the store at the second one, and the second
    replaces the session (and the cart) stored by the first. *)
Lemma same_millisecond_same_id :
  let '(w1, r1) := session_create ascii_str default_config 1700000000000
                     (fl 1700000000) ali_request empty_world in
  let '(w2, _) := cart_add "sess_1700000000000" "Chicken" (fl 500) 2 w1 in
  let '(w3, r3) := session_create ascii_str default_config 1700000000000
                     (fl 1700000000) sara_request w2 in
  r1 = Ok {| new_session_id := "sess_1700000000000"; new_user := ali |}
  ∧ r3 = Ok {| new_session_id := "sess_1700000000000";
               new_user := UserInfo "Sara" "+923117654321" "Flat 9 Block C" |}
  ∧ sessions w2 !! "sess_1700000000000"
    = Some (set_cart (new_session (fl 1700000000) ali) (Some chicken_cart))
  ∧ sessions w3 !! "sess_1700000000000"
    = Some (new_session (fl 1700000000)
              (UserInfo "Sara" "+923117654321" "Flat 9 Block C")).
Proof. vm_compute. repeat split. Qed.

(** Lines 315-319 of [session_reset] do what the handler is meant to do when
    [body] is the parsed dict: a stored session is popped and the answer is
    true, an unknown id leaves the store alone and the answer is false. *)
Lemma session_reset_body_parsed sid w :
  sid ≠ "" →
  session_reset_body (PyJson (JObj [("session_id", JStr sid)])) w
  = match sessions w !! sid with
    | Some _ => (set_sessions w (delete sid (sessions w)), Ok true)
    | None => (w, Ok false)
    end.
Proof.
  intros Hne. unfold session_reset_body. simpl.
  rewrite bool_decide_eq_false_2 by exact Hne. reflexivity.
Qed.

(** C4: the claim fails on the code.  [session_reset] is a plain [def] and
    calls [request.json()] without [await]: [body] is a coroutine object,
    not a dict, the session id is [None], and the handler answers false
    and pops nothing, also for the id of a stored session. *)
Theorem session_reset_keeps_stored_session :
  let request :=
    {| request_body := Some (JObj [("session_id", JStr "sess_1700000000000")]) |} in
  is_Some (sessions ali_world !! "sess_1700000000000")
  ∧ session_reset request ali_world = (ali_world, Ok false)
  ∧ ∀ request' w, session_reset request' w = (w, Ok false).
Proof.
  split; [|split].
  - eexists. apply lookup_singleton_eq.
  - reflexivity.
  - reflexivity.
Qed.

(** C10: when [checkout] runs on an existing session with a non-empty cart,
    the payload it posts to the billing API has as total the total of
    [compute_cart_summary] on the same cart, and its item rows carry, one
    for one and in order, the values of the summary rows: itemName is name,
    qty is qty, rate is rate, amount is amount. *)
Theorem checkout_payload_agrees_with_summary
    (cfg : config) (bill : billing_request → post_outcome)
    (sid payment : string) (w : world) (state : session) :
  sessions w !! sid = Some state → get_cart state ≠ [] →
  ∃ request,
    outbox (fst (checkout cfg bill sid payment w)) = (outbox w ++ [request])%list
    ∧ payload_total (sent_payload request)
      = total (compute_cart_summary (get_cart state))
    ∧ Forall2 (fun (r : payload_item) (l : summary_line) =>
                 itemName r = line_name l ∧ item_qty r = line_qty l ∧
                 rate r = line_rate l ∧ amount r = line_amount l)
              (items (sent_payload request))
              (lines (compute_cart_summary (get_cart state))).
Proof.
  intros Hs Hc. exists (checkout_request cfg state payment). split.
  - rewrite (checkout_posts cfg bill sid payment w state Hs Hc). cbv zeta.
    destruct (bill (checkout_request cfg state payment)) as [err|st body];
      [reflexivity|].
    destruct (bool_decide (st = 200 ∨ st = 201)); reflexivity.
  - apply build_payload_agrees_with_summary.
Qed.

Lemma checkout_payload_agrees_with_summary_witness :
  ∃ request,
    outbox (fst (checkout default_config (billing_answers 201)
                   "sess_1700000000000" "Cash on Delivery" ali_world))
    = [request]
    ∧ payload_total (sent_payload request)
      = total (compute_cart_summary chicken_cart).
Proof.
  destruct (checkout_payload_agrees_with_summary default_config
              (billing_answers 201) "sess_1700000000000" "Cash on Delivery"
              ali_world (set_cart ali_session (Some chicken_cart))
              (lookup_singleton_eq _ _) ltac:(discriminate))
    as (request & Hout & Htot & _).
  exists request. split; [exact Hout | exact Htot].
Defined.


(** ** The spec's scenario on the code *)

(** "Chicken" twice with different case, then two removals: the lines stay
    apart, and each removal works on the first of them. *)
Example chicken_scenario_on_the_code :
  let s1 := run_ops ascii_str
              [AddItem "Chicken" (fl 500) 2; AddItem "chicken" (fl 500) 1]
              ali_session in
  let '(s2, r2) := remove_from_cart_state ascii_str s1 "CHICKEN" 1 in
  let '(s3, r3) := remove_from_cart_state ascii_str s2 "Chicken" 5 in
  get_cart s2 = [LineItem "Chicken" (fl 500) 1 (fl 500);
                 LineItem "chicken" (fl 500) 1 (fl 500)]
  ∧ r2 = Returned (reduced_result "CHICKEN" 1)
  ∧ get_cart s3 = [LineItem "chicken" (fl 500) 1 (fl 500)]
  ∧ r3 = Returned (removed_result "Chicken").
Proof. vm_compute. repeat split. Qed.

(** A deletion timer that fires for a session that is gone changes
    nothing. *)
Lemma timer_fires_stale sid w :
  sessions w !! sid = None → timer_fires sid w = w.
Proof.
  intros H. unfold timer_fires, set_sessions.
  rewrite delete_id by exact H. by destruct w.
Qed.

(** * Further properties of the code *)

(** ** [session_create] *)

(** A creation that raises raises 400, stores no session and starts no
    timer. *)
Theorem session_create_failure_changes_nothing
    (py : PyStr) (cfg : config) (now_ms : Z) (now : float)
    (req : SessionCreateRequest) (w w' : world) (st : Z) (d : detail_t) :
  session_create py cfg now_ms now req w = (w', Raise st d) →
  w' = w ∧ st = 400.
Proof.
  unfold session_create.
  destruct (bool_decide (str_strip py (req_name req) = ""));
    [intros H; injection H as <- <- _; done|].
  destruct (negb (validate_mobile py (str_strip py (req_mobile req))));
    [intros H; injection H as <- <- _; done|].
  destruct (bool_decide (str_strip py (req_address req) = "")
            || (str_len py (str_strip py (req_address req)) <? 3)%nat);
    [intros H; injection H as <- <- _; done|].
  discriminate.
Qed.

Lemma session_create_failure_changes_nothing_witness :
  session_create ascii_str default_config 1700000000000 (fl 1700000000)
    {| req_name := "Ali"; req_mobile := "12345";
       req_address := "House 1 St 2"; req_country_code := None |} ali_world
  = (ali_world, Raise 400 (DetailText
      "Mobile must be 10 digits, start with 3 and contain only digits (e.g., 3001234567)."))
  ∧ ali_world = ali_world ∧ 400 = 400.
Proof.
  split; [reflexivity|].
  exact (session_create_failure_changes_nothing ascii_str default_config
           1700000000000 (fl 1700000000)
           {| req_name := "Ali"; req_mobile := "12345";
              req_address := "House 1 St 2"; req_country_code := None |}
           ali_world ali_world 400
           (DetailText "Mobile must be 10 digits, start with 3 and contain only digits (e.g., 3001234567).")
           eq_refl).
Defined.

(** ** Handlers on the session store *)

(** An id that is not a key of [sessions] makes [cart_add], [cart_remove],
    [cart_view] and [checkout] raise 404 "Session not found."; none of them
    touches the store, starts a timer or calls the billing API. *)
Theorem unknown_session_is_404
    (py : PyStr) (cfg : config) (bill : billing_request → post_outcome)
    (sid item_name payment : string) (p : float) (q : Z) (w : world) :
  sessions w !! sid = None →
  cart_add sid item_name p q w = (w, Raise 404 (DetailText "Session not found."))
  ∧ cart_remove py sid item_name q w
    = (w, Raise 404 (DetailText "Session not found."))
  ∧ cart_view sid w = Raise 404 (DetailText "Session not found.")
  ∧ checkout cfg bill sid payment w
    = (w, Raise 404 (DetailText "Session not found.")).
Proof.
  intros H. unfold cart_add, cart_remove, cart_view, checkout.
  rewrite H. repeat split.
Qed.

Lemma unknown_session_is_404_witness :
  cart_view "sess_0" ali_world = Raise 404 (DetailText "Session not found.").
Proof.
  exact (proj1 (proj2 (proj2 (unknown_session_is_404 ascii_str default_config
           (billing_answers 200) "sess_0" "Chicken" "Cash on Delivery"
           (fl 500) 1 ali_world
           (lookup_singleton_ne "sess_1700000000000" "sess_0" _
              ltac:(discriminate)))))).
Defined.

Lemma cart_add_world sid n p q w :
  fst (cart_add sid n p q w)
  = match sessions w !! sid with
    | Some state =>
        set_sessions w
          (<[sid := fst (add_to_cart_state state n p q)]> (sessions w))
    | None => w
    end.
Proof.
  unfold cart_add. destruct (sessions w !! sid) as [state|]; [|reflexivity].
  destruct (add_to_cart_state state n p q); reflexivity.
Qed.

Lemma cart_remove_world py sid n q w :
  fst (cart_remove py sid n q w)
  = match sessions w !! sid with
    | Some state =>
        set_sessions w
          (<[sid := fst (remove_from_cart_state py state n q)]> (sessions w))
    | None => w
    end.
Proof.
  unfold cart_remove. destruct (sessions w !! sid) as [state|]; [|reflexivity].
  destruct (remove_from_cart_state py state n q); reflexivity.
Qed.

Lemma user_apply_op py state op :
  user (apply_op py state op) = user state
  ∧ created_at (apply_op py state op) = created_at state.
Proof.
  destruct op as [n p q|n q]; simpl.
  - unfold add_to_cart_state.
    destruct (add_to_cart (get_cart state) n p q); done.
  - unfold remove_from_cart_state. destruct (cart state) as [c|]; [|done].
    destruct (remove_from_cart py c n q); done.
Qed.

(** [cart_add] and [cart_remove] touch nothing but the cart of the session
    they are called for: the set of session ids, every other session, the
    profile and creation time of the session itself, the timers and the
    requests posted to the billing API are as before. *)
Theorem cart_handlers_touch_one_cart
    (py : PyStr) (sid : string) (op : cart_op) (w : world) :
  let w' := match op with
            | AddItem n p q => fst (cart_add sid n p q w)
            | RemoveItem n q => fst (cart_remove py sid n q w)
            end in
  dom (sessions w') = dom (sessions w)
  ∧ (∀ sid', sid' ≠ sid → sessions w' !! sid' = sessions w !! sid')
  ∧ (user <$> sessions w' !! sid) = (user <$> sessions w !! sid)
  ∧ (created_at <$> sessions w' !! sid) = (created_at <$> sessions w !! sid)
  ∧ (get_cart <$> sessions w' !! sid)
    = ((fun state => get_cart (apply_op py state op)) <$> sessions w !! sid)
  ∧ timers w' = timers w ∧ outbox w' = outbox w.
Proof.
  intros w'.
  assert (Hw' : w' = match sessions w !! sid with
                     | Some state =>
                         set_sessions w
                           (<[sid := apply_op py state op]> (sessions w))
                     | None => w
                     end).
  { subst w'. destruct op; [apply cart_add_world | apply cart_remove_world]. }
  rewrite Hw'. clear Hw' w'.
  destruct (sessions w !! sid) as [state|] eqn:Hs.
  - simpl. destruct (user_apply_op py state op) as [Hu Ht].
    rewrite lookup_insert_eq. simpl. rewrite Hu, Ht.
    repeat split; try reflexivity.
    + apply dom_insert_lookup_L. by eexists.
    + intros sid' Hne. by apply lookup_insert_ne.
  - rewrite Hs. repeat split; reflexivity.
Qed.

(** What [cart_add] returns is what the store then holds: a [cart_view] of
    the session right after shows the cart that the helper left, with the
    unchanged profile, and when the helper returned that cart and its
    summary are the reply of [cart_add]; when the helper raised
    [OverflowError] the handler answers 500 and the store still holds what
    the helper had assigned. *)
Theorem cart_view_after_cart_add
    (sid item_name : string) (p : float) (q : Z) (w : world) (state : session) :
  sessions w !! sid = Some state →
  let c' := fst (add_to_cart (get_cart state) item_name p q) in
  cart_view sid (fst (cart_add sid item_name p q w))
  = Ok {| view_user := user state; view_cart := c';
          view_summary := compute_cart_summary c' |}
  ∧ match snd (add_to_cart (get_cart state) item_name p q) with
    | Returned _ =>
        snd (cart_add sid item_name p q w)
        = Ok {| reply_cart := c'; reply_summary := compute_cart_summary c' |}
    | OverflowError =>
        snd (cart_add sid item_name p q w)
        = Raise 500 (DetailText "Internal Server Error")
    end.
Proof.
  intros Hs c'. subst c'. unfold cart_add, cart_view, add_to_cart_state.
  rewrite Hs.
  destruct (add_to_cart (get_cart state) item_name p q) as [c' r]; simpl.
  rewrite lookup_insert_eq. split; [reflexivity|]. by destruct r.
Qed.

Lemma cart_view_after_cart_add_witness :
  cart_view "sess_1700000000000"
    (fst (cart_add "sess_1700000000000" "Mutton" (fl 900) 1 ali_world))
  = Ok {| view_user := ali;
          view_cart := [LineItem "Chicken" (fl 500) 2 (fl 1000);
                        LineItem "Mutton" (fl 900) 1 (fl 900)];
          view_summary :=
            compute_cart_summary [LineItem "Chicken" (fl 500) 2 (fl 1000);
                                  LineItem "Mutton" (fl 900) 1 (fl 900)] |}.
Proof.
  exact (proj1 (cart_view_after_cart_add "sess_1700000000000" "Mutton" (fl 900)
                  1 ali_world (set_cart ali_session (Some chicken_cart))
                  (lookup_singleton_eq _ _))).
Defined.

(** A session that was just created shows, in [cart_view], the profile that
    [session_create] returned, an empty cart and a summary with no row and
    total 0. *)
Theorem cart_view_after_session_create
    (py : PyStr) (cfg : config) (now_ms : Z) (now : float)
    (req : SessionCreateRequest) (w w' : world) (r : session_created) :
  session_create py cfg now_ms now req w = (w', Ok r) →
  cart_view (new_session_id r) w'
  = Ok {| view_user := new_user r; view_cart := [];
          view_summary := {| lines := []; total := fzero |} |}.
Proof.
  intros H. apply session_create_ok in H as [Hid ->].
  unfold cart_view. rewrite Hid. simpl. rewrite lookup_insert_eq. reflexivity.
Qed.

Lemma cart_view_after_session_create_witness :
  cart_view "sess_1700000000000"
    (fst (session_create ascii_str default_config 1700000000000
            (fl 1700000000) ali_request empty_world))
  = Ok {| view_user := ali; view_cart := [];
          view_summary := {| lines := []; total := fzero |} |}.
Proof.
  exact (cart_view_after_session_create ascii_str default_config 1700000000000
           (fl 1700000000) ali_request empty_world _
           {| new_session_id := "sess_1700000000000"; new_user := ali |}
           eq_refl).
Defined.

(** ** The cart helpers *)

Lemma merge_line_fields it q :
  qty (fst (merge_line it q)) = qty it + q
  ∧ price (fst (merge_line it q)) = price it.
Proof. unfold merge_line. by destruct (float_of_int (qty it + q)). Qed.




Lemma add_to_cart_twice c n p p' q q' :
  returns (snd (add_to_cart c n p q)) →
  returns (snd (add_to_cart (fst (add_to_cart c n p q)) n p' q')) →
  add_to_cart (fst (add_to_cart c n p q)) n p' q' = add_to_cart c n p (q + q').
Proof.
  induction c as [|it rest IH]; simpl.
  - destruct (float_of_int q) as [f|]; simpl.
    2:{ intros [a Ha]. discriminate Ha. }
    intros _. rewrite decide_True by reflexivity.
    unfold merge_line; simpl.
    destruct (float_of_int (q + q')) as [f'|]; simpl.
    + intros _. by rewrite fmul_comm.
    + intros [a Ha]. discriminate Ha.
  - destruct (decide (name it = n)) as [Heq|Hne].
    + unfold merge_line.
      destruct (float_of_int (qty it + q)) as [f|]; simpl.
      2:{ intros [a Ha]. discriminate Ha. }
      intros _. rewrite decide_True by exact Heq. unfold merge_line; simpl.
      rewrite <- Z.add_assoc.
      destruct (float_of_int (qty it + (q + q'))) as [f'|]; simpl.
      * reflexivity.
      * intros [a Ha]. discriminate Ha.
    + destruct (add_to_cart rest n p q) as [rest' r] eqn:Hadd; simpl in *.
      rewrite decide_False by exact Hne.
      intros Hr Hr'.
      destruct (add_to_cart rest' n p' q') as [rest'' r''] eqn:Hadd'.
      simpl in Hr'. rewrite <- (IH Hr Hr'). reflexivity.
Qed.

(** Two [add_to_cart_state] calls under the same name that both return
    leave the session dict that one call with the summed quantity and the
    first call's price leaves, and that call returns too. *)
Theorem add_twice_is_add_of_sum
    (state : session) (n : string) (p p' : float) (q q' : Z) :
  returns (snd (add_to_cart_state state n p q)) →
  returns (snd (add_to_cart_state (fst (add_to_cart_state state n p q))
                                  n p' q')) →
  add_to_cart_state (fst (add_to_cart_state state n p q)) n p' q'
  = add_to_cart_state state n p (q + q').
Proof.
  rewrite !snd_add_to_cart_state, get_cart_add. intros Hr Hr'.
  unfold add_to_cart_state at 1 3. rewrite get_cart_add.
  rewrite (add_to_cart_twice _ n p p' q q' Hr Hr').
  unfold add_to_cart_state.
  destruct (add_to_cart (get_cart state) n p q) as [c1 r1].
  destruct (add_to_cart (get_cart state) n p (q + q')) as [c2 r2].
  reflexivity.
Qed.

Lemma add_twice_is_add_of_sum_witness :
  add_to_cart_state
    (fst (add_to_cart_state ali_session "Chicken" (fl 500) 2))
    "Chicken" (fl 600) 1
  = add_to_cart_state ali_session "Chicken" (fl 500) 3.
Proof.
  refine (add_twice_is_add_of_sum ali_session "Chicken" (fl 500) (fl 600) 2 1
            _ _); vm_compute; eexists; reflexivity.
Defined.

Lemma no_match_other_names py n c :
  no_match py n c → Forall (fun x => name x ≠ n) c.
Proof.
  unfold no_match. intros H. eapply Forall_impl; [exact H|].
  intros x Hx Heq.
  unfold matches in Hx. apply bool_decide_eq_false in Hx.
  apply Hx. by rewrite Heq.
Qed.

Lemma matches_own_name py n p q s : matches py n (LineItem n p q s) = true.
Proof. unfold matches. by apply bool_decide_eq_true. Qed.

(** Adding under a name that no line of the cart matches up to case, in a
    call that returns, then removing at least the added quantity under that
    name, gives the cart back as it was and answers "Removed ...". *)
Theorem add_then_remove_restores_cart
    (py : PyStr) (state : session) (n : string) (p : float) (q q' : Z) :
  no_match py n (get_cart state) → q ≤ q' →
  returns (snd (add_to_cart_state state n p q)) →
  remove_from_cart_state py (fst (add_to_cart_state state n p q)) n q'
  = (set_cart state (Some (get_cart state)), Returned (removed_result n)).
Proof.
  intros Hno Hle Hr. rewrite snd_add_to_cart_state in Hr.
  pose proof (no_match_other_names py n _ Hno) as Hnames.
  destruct (float_of_int q) as [f|] eqn:Hf.
  2:{ rewrite (add_to_cart_append_raises _ n p q Hnames Hf) in Hr.
      destruct Hr as [a Ha]. discriminate Ha. }
  unfold remove_from_cart_state, add_to_cart_state.
  rewrite (add_to_cart_appends _ n p q f Hnames Hf).
  cbn [fst set_cart cart].
  rewrite (remove_from_cart_found py (get_cart state) _ [] n q' Hno
             (matches_own_name py n p q _)).
  cbn [qty]. apply Z.leb_le in Hle. rewrite Hle, app_nil_r. reflexivity.
Qed.

Lemma add_then_remove_restores_cart_witness :
  remove_from_cart_state ascii_str
    (fst (add_to_cart_state (set_cart ali_session (Some chicken_cart))
                            "Mutton" (fl 900) 2))
    "Mutton" 2
  = (set_cart ali_session (Some chicken_cart),
     Returned (removed_result "Mutton")).
Proof.
  refine (add_then_remove_restores_cart ascii_str
            (set_cart ali_session (Some chicken_cart)) "Mutton" (fl 900) 2 2
            _ _ _).
  - repeat constructor.
  - discriminate.
  - vm_compute. eexists. reflexivity.
Defined.

(** ** Invariants of cart histories *)

Lemma add_to_cart_positive c n p q :
  0 < q → Forall (fun it => 0 < qty it) c →
  Forall (fun it => 0 < qty it) (fst (add_to_cart c n p q)).
Proof.
  intros Hq. induction c as [|it rest IH]; intros Hc; simpl.
  - destruct (float_of_int q); simpl; [|constructor].
    constructor; [exact Hq | constructor].
  - inversion Hc as [|? ? Hit Hrest]; subst.
    destruct (decide (name it = n)).
    + destruct (merge_line_fields it q) as [Hq' _].
      destruct (merge_line it q) as [it' r]; simpl in *.
      constructor; [lia | exact Hrest].
    + specialize (IH Hrest).
      destruct (add_to_cart rest n p q) as [rest' r]; simpl in *.
      by constructor.
Qed.

Lemma remove_from_cart_positive py c n q :
  Forall (fun it => 0 < qty it) c →
  Forall (fun it => 0 < qty it) (fst (remove_from_cart py c n q)).
Proof.
  induction c as [|it rest IH]; intros Hc; simpl; [constructor|].
  inversion Hc as [|? ? Hit Hrest]; subst.
  destruct (matches py n it).
  - destruct (Z.leb_spec (qty it) q); simpl; [exact Hrest|].
    destruct (reduce_line_fields it q) as [Hq' _].
    destruct (reduce_line it q) as [it' [[]|]]; simpl in *;
      (constructor; [lia | exact Hrest]).
  - specialize (IH Hrest).
    destruct (remove_from_cart py rest n q) as [rest' r]; simpl in *.
    by constructor.
Qed.

(** When every add call of a history asks for a positive quantity, every
    line of the cart has a positive quantity, whatever quantities the
    remove calls ask for (zero and negative ones included) and whether the
    calls return or raise: a removal lowers a quantity only while the
    result stays positive and drops the line otherwise. *)
Theorem quantities_stay_positive
    (py : PyStr) (state : session) (ops : list cart_op) :
  adds_positive ops →
  Forall (fun it => 0 < qty it)
         (get_cart (run_ops py ops (with_empty_cart state))).
Proof.
  intros Hops.
  assert (Hgen : ∀ s, Forall (fun it => 0 < qty it) (get_cart s) →
                      Forall (fun it => 0 < qty it) (get_cart (run_ops py ops s))).
  { induction Hops as [|op rest Hop _ IH]; intros s Hs; [exact Hs|].
    simpl. apply IH. rewrite get_cart_apply_op. destruct op as [n p q|n q].
    - by apply add_to_cart_positive.
    - by apply remove_from_cart_positive. }
  apply Hgen. constructor.
Qed.

Lemma quantities_stay_positive_witness :
  Forall (fun it => 0 < qty it)
    (get_cart (run_ops ascii_str
                 [AddItem "Chicken" (fl 500) 2; RemoveItem "chicken" (-3);
                  RemoveItem "CHICKEN" 4] ali_session)).
Proof.
  refine (quantities_stay_positive ascii_str ali_session
            [AddItem "Chicken" (fl 500) 2; RemoveItem "chicken" (-3);
             RemoveItem "CHICKEN" 4] _).
  repeat constructor.
Defined.

Lemma run_ops_names py ops :
  ∀ s x, x ∈ map name (get_cart (run_ops py ops s)) →
         x ∈ map name (get_cart s) ∨ x ∈ add_names ops.
Proof.
  induction ops as [|op rest IH]; intros s x Hx; [by left|].
  simpl in Hx. apply IH in Hx as [Hx|Hx].
  - rewrite get_cart_apply_op in Hx. destruct op as [n p q|n q].
    + rewrite add_to_cart_names in Hx.
      destruct (decide (n ∈ map name (get_cart s))); [by left|].
      destruct (float_of_int q); [|by left].
      apply elem_of_app in Hx as [Hx|Hx]; [by left|].
      apply list_elem_of_singleton in Hx as ->. right. simpl. apply list_elem_of_here.
    + left. eapply elem_of_sublist; [exact Hx|].
      apply remove_from_cart_names_sublist.
  - right. destruct op; simpl; [by apply list_elem_of_further | exact Hx].
Qed.

Lemma name_elem_of (it : line_item) (c : list line_item) :
  it ∈ c → name it ∈ map name c.
Proof. rewrite !list_elem_of_In. apply in_map. Qed.

Lemma unique_ci_of_nodup py (c : list line_item) :
  NoDup (map name c) →
  (∀ a b, a ∈ map name c → b ∈ map name c → same_name_ci py a b → a = b) →
  unique_ci py c.
Proof.
  induction c as [|it rest IH]; intros Hnd Hsp; simpl; [exact I|].
  change (map name (it :: rest)) with (name it :: map name rest) in *.
  apply NoDup_cons in Hnd as [Hnin Hnd]. split.
  - apply Forall_forall. intros x Hx Hci.
    apply Hnin.
    assert (Heq : name it = name x).
    { apply Hsp; [apply list_elem_of_here | | exact Hci].
      by apply list_elem_of_further, name_elem_of. }
    rewrite Heq. by apply name_elem_of.
  - apply IH; [exact Hnd|]. intros a b Ha Hb.
    apply Hsp; by apply list_elem_of_further.
Qed.

(** When the add calls of a history never spell one name in two ways (two
    names passed to add calls that are equal up to case, for the [lower] of
    the interpreter, are equal), the cart never holds two lines whose names
    are equal up to case, and every line carries a name that some add call
    passed. *)
Theorem consistent_spelling_keeps_names_unique
    (py : PyStr) (state : session) (ops : list cart_op) :
  (∀ a b, a ∈ add_names ops → b ∈ add_names ops → same_name_ci py a b → a = b) →
  unique_ci py (get_cart (run_ops py ops (with_empty_cart state)))
  ∧ Forall (fun it => name it ∈ add_names ops)
           (get_cart (run_ops py ops (with_empty_cart state))).
Proof.
  intros Hsp.
  assert (Hin : ∀ x, x ∈ map name (get_cart (run_ops py ops (with_empty_cart state)))
                     → x ∈ add_names ops).
  { intros x Hx. apply run_ops_names in Hx as [Hx|Hx]; [|exact Hx].
    by apply not_elem_of_nil in Hx. }
  split.
  - apply unique_ci_of_nodup.
    + apply (run_ops_invariant py (fun c => NoDup (map name c))).
      * intros c n p q Hc. by apply add_to_cart_nodup.
      * intros c n q Hc.
        eapply sublist_NoDup; [exact Hc | apply remove_from_cart_names_sublist].
      * constructor.
    + intros a b Ha Hb. apply Hsp; by apply Hin.
  - apply Forall_forall. intros it Hit. by apply Hin, name_elem_of.
Qed.

Lemma consistent_spelling_keeps_names_unique_witness :
  unique_ci ascii_str
    (get_cart (run_ops ascii_str
                 [AddItem "Chicken" (fl 500) 2; AddItem "Mutton" (fl 900) 1;
                  AddItem "Chicken" (fl 500) 1] ali_session)).
Proof.
  refine (proj1 (consistent_spelling_keeps_names_unique ascii_str ali_session
            [AddItem "Chicken" (fl 500) 2; AddItem "Mutton" (fl 900) 1;
             AddItem "Chicken" (fl 500) 1] _)).
  intros a b Ha Hb Hab. simpl in Ha, Hb.
  repeat (apply elem_of_cons in Ha as [->|Ha]);
    repeat (apply elem_of_cons in Hb as [->|Hb]);
    try reflexivity; try discriminate Hab;
    exfalso; first [by apply not_elem_of_nil in Ha | by apply not_elem_of_nil in Hb].
Defined.

(** ** Checkout and the deletion timers *)

(** The world after a [checkout] that the billing API accepted. *)
Lemma checkout_accepted cfg bill sid payment w state st body :
  sessions w !! sid = Some state → get_cart state ≠ [] →
  bill (checkout_request cfg state payment) = PostResponse st body →
  st = 200 ∨ st = 201 →
  fst (checkout cfg bill sid payment w)
  = {| sessions := <[sid := set_cart state (Some [])]> (sessions w);
       timers := (timers w ++ [(sid, 30)])%list;
       outbox := (outbox w ++ [checkout_request cfg state payment])%list |}.
Proof.
  intros Hs Hc Hb Hst.
  rewrite (checkout_posts cfg bill sid payment w state Hs Hc). cbv zeta.
  rewrite Hb, bool_decide_eq_true_2 by exact Hst. reflexivity.
Qed.

(** After a checkout that the billing API accepted with 200 or 201, a
    second checkout of the same session raises 400 "Cart is empty." and
    posts nothing, whatever the billing API would answer: an order is not
    sent twice. *)
Theorem checkout_again_is_rejected
    (cfg : config) (bill bill' : billing_request → post_outcome)
    (sid payment payment' : string) (w : world) (state : session)
    (st : Z) (body : string) :
  sessions w !! sid = Some state → get_cart state ≠ [] →
  bill (checkout_request cfg state payment) = PostResponse st body →
  st = 200 ∨ st = 201 →
  let w1 := fst (checkout cfg bill sid payment w) in
  checkout cfg bill' sid payment' w1
  = (w1, Raise 400 (DetailText "Cart is empty."))
  ∧ outbox w1 = (outbox w ++ [checkout_request cfg state payment])%list.
Proof.
  intros Hs Hc Hb Hst w1. subst w1.
  rewrite (checkout_accepted cfg bill sid payment w state st body Hs Hc Hb Hst).
  split; [|reflexivity].
  unfold checkout. cbn [sessions]. rewrite lookup_insert_eq. reflexivity.
Qed.

Lemma checkout_again_is_rejected_witness :
  let w1 := fst (checkout default_config (billing_answers 200)
                   "sess_1700000000000" "Cash on Delivery" ali_world) in
  checkout default_config (billing_answers 200) "sess_1700000000000"
           "Cash on Delivery" w1
  = (w1, Raise 400 (DetailText "Cart is empty.")).
Proof.
  exact (proj1 (checkout_again_is_rejected default_config (billing_answers 200)
           (billing_answers 200) "sess_1700000000000" "Cash on Delivery"
           "Cash on Delivery" ali_world
           (set_cart ali_session (Some chicken_cart)) 200 "{}"
           (lookup_singleton_eq _ _) ltac:(discriminate) eq_refl
           (or_introl eq_refl))).
Defined.

(** After an accepted checkout the session is still there, with its
    profile, an empty cart and total 0; once its deletion thread has run,
    [cart_view] raises 404. *)
Theorem session_lives_until_timer_fires
    (cfg : config) (bill : billing_request → post_outcome)
    (sid payment : string) (w : world) (state : session)
    (st : Z) (body : string) :
  sessions w !! sid = Some state → get_cart state ≠ [] →
  bill (checkout_request cfg state payment) = PostResponse st body →
  st = 200 ∨ st = 201 →
  let w1 := fst (checkout cfg bill sid payment w) in
  cart_view sid w1
  = Ok {| view_user := user state; view_cart := [];
          view_summary := {| lines := []; total := fzero |} |}
  ∧ (sid, 30) ∈ timers w1
  ∧ cart_view sid (timer_fires sid w1)
    = Raise 404 (DetailText "Session not found.").
Proof.
  intros Hs Hc Hb Hst w1. subst w1.
  rewrite (checkout_accepted cfg bill sid payment w state st body Hs Hc Hb Hst).
  unfold cart_view, timer_fires. cbn [sessions timers set_sessions].
  rewrite lookup_insert_eq, lookup_delete_eq. split; [reflexivity|].
  split; [|reflexivity].
  apply elem_of_app. right. apply list_elem_of_here.
Qed.

Lemma session_lives_until_timer_fires_witness :
  let w1 := fst (checkout default_config (billing_answers 201)
                   "sess_1700000000000" "Online Transfer" ali_world) in
  cart_view "sess_1700000000000" (timer_fires "sess_1700000000000" w1)
  = Raise 404 (DetailText "Session not found.").
Proof.
  exact (proj2 (proj2 (session_lives_until_timer_fires default_config
           (billing_answers 201) "sess_1700000000000" "Online Transfer"
           ali_world (set_cart ali_session (Some chicken_cart)) 201 "{}"
           (lookup_singleton_eq _ _) ltac:(discriminate) eq_refl
           (or_intror eq_refl)))).
Defined.

(** Whatever its outcome, [checkout] creates and deletes no session, leaves
    every other session alone, keeps the profile and creation time of the
    session it is called for, never removes a timer or a posted request,
    and posts at most one request. *)
Theorem checkout_touches_one_cart
    (cfg : config) (bill : billing_request → post_outcome)
    (sid payment : string) (w : world) :
  let w' := fst (checkout cfg bill sid payment w) in
  dom (sessions w') = dom (sessions w)
  ∧ (∀ sid', sid' ≠ sid → sessions w' !! sid' = sessions w !! sid')
  ∧ (user <$> sessions w' !! sid) = (user <$> sessions w !! sid)
  ∧ (created_at <$> sessions w' !! sid) = (created_at <$> sessions w !! sid)
  ∧ (timers w' = timers w ∨ timers w' = (timers w ++ [(sid, 30)])%list)
  ∧ (outbox w' = outbox w ∨ ∃ request, outbox w' = (outbox w ++ [request])%list).
Proof.
  intros w'. subst w'. unfold checkout.
  destruct (sessions w !! sid) as [state|] eqn:Hs.
  2:{ simpl. rewrite Hs. repeat split; auto. }
  destruct (get_cart state) as [|it rest].
  { simpl. rewrite Hs. repeat split; auto. }
  match goal with |- context [bill ?r] => destruct (bill r) as [err|st body] end.
  { simpl. rewrite Hs. repeat split; eauto. }
  destruct (bool_decide (st = 200 ∨ st = 201)).
  - simpl. rewrite lookup_insert_eq. simpl. repeat split; eauto.
    + apply dom_insert_lookup_L. by eexists.
    + intros sid' Hne. by apply lookup_insert_ne.
  - simpl. rewrite Hs. repeat split; eauto.
Qed.

(** The deletion thread of a session removes that session and nothing
    else; run again, or run for a session that is already gone, it changes
    nothing. *)
Theorem timer_fires_once (sid : string) (w : world) :
  sessions (timer_fires sid w) !! sid = None
  ∧ (∀ sid', sid' ≠ sid →
       sessions (timer_fires sid w) !! sid' = sessions w !! sid')
  ∧ timer_fires sid (timer_fires sid w) = timer_fires sid w
  ∧ (sessions w !! sid = None → timer_fires sid w = w).
Proof.
  unfold timer_fires, set_sessions. cbn [sessions timers outbox].
  split; [apply lookup_delete_eq|]. split.
  - intros sid' Hne. by apply lookup_delete_ne.
  - split.
    + f_equal. apply delete_id, lookup_delete_eq.
    + intros H. rewrite delete_id by exact H. by destruct w.
Qed.
